(** * TypesConverter and the typed-data signers of the Safeguard pool helpers

    A shallow embedding of
    [pvt/helpers/src/models/types/TypesConverter.ts] and of the three
    [sign*Data] functions that build EIP-712 requests, together with the
    properties their description states.

    JavaScript values are modelled by the shapes the TypeScript types give
    them: an optional property is an [option] (or a [prop] where the code
    tells an absent property from one set to [undefined]), a value that is
    "one or a list" is an [NAry], an exception is the [Throw] case of
    [result], and a settled promise is a [result] as well. *)

From Stdlib Require Import ZArith QArith String Ascii List Lia DecimalString.
From Stdlib Require Import DecimalNat DecimalFacts.
From stdpp Require Import base option list strings.

Local Open Scope string_scope.
Local Open Scope Z_scope.
Local Open Scope list_scope.

(** ** JavaScript preliminaries *)

Module Js.

(** The outcome of a call (or of an awaited promise): a value, or the
    message of the [Error] that was thrown (the rejection reason). *)
Inductive result (A : Type) : Type :=
| Ok (a : A)
| Throw (msg : string).
Arguments Ok {A} a.
Arguments Throw {A} msg.

Definition bind {A B} (m : result A) (k : A -> result B) : result B :=
  match m with
  | Ok a => k a
  | Throw e => Throw e
  end.

(** [xs.flatMap(f)] for a callback that may throw: the callbacks run left
    to right and the first exception aborts the whole call. *)
Fixpoint flatMap {A B} (f : A -> result (list B)) (xs : list A)
  : result (list B) :=
  match xs with
  | [] => Ok []
  | x :: rest =>
      bind (f x) (fun ys => bind (flatMap f rest) (fun zs => Ok (ys ++ zs)))
  end.

(** [NAry<T> = T | Array<T>]; [Array.isArray] tells the two apart. *)
Inductive NAry (A : Type) : Type :=
| One (a : A)
| Many (l : list A).
Arguments One {A} a.
Arguments Many {A} l.

(** A property of an object literal: not there, there with the value
    [undefined], or there with a value.  [Object.assign] copies the last
    two, destructuring reads the first two as [undefined]. *)
Inductive prop (A : Type) : Type :=
| Absent
| Undefined
| Value (a : A).
Arguments Absent {A}.
Arguments Undefined {A}.
Arguments Value {A} a.

(** Reading a property: [undefined] is [None]. *)
Definition get {A} (p : prop A) : option A :=
  match p with Value a => Some a | _ => None end.

(** One property of [Object.assign({}, defaults, source)]: the source's
    own property wins, whatever its value, over the default's. *)
Definition assign {A} (dflt : option A) (src : prop A) : option A :=
  match src with
  | Absent => dflt
  | Undefined => None
  | Value a => Some a
  end.

(** A property written with a possibly [undefined] value. *)
Definition as_prop {A} (x : option A) : prop A :=
  match x with Some a => Value a | None => Undefined end.

(** [x ?? d]. *)
Definition nullish {A} (x : option A) (d : A) : A :=
  match x with Some a => a | None => d end.

(** [Array(n).fill(x)]: [Array(n)] takes as a length an integer from 0 up
    to 2^32 - 1 and throws a [RangeError] for every other number. *)
Definition Array_fill {A} (n : Z) (x : A) : result (list A) :=
  if (0 <=? n) && (n <? 2 ^ 32)
  then Ok (replicate (Z.to_nat n) x)
  else Throw "Invalid array length".

(** The decimal text of an array index, as a template literal prints it. *)
Definition index_to_string (i : nat) : string :=
  NilZero.string_of_uint (Nat.to_uint i).

End Js.
Import Js.

#[global] Instance result_ret : MRet result := fun A a => Ok a.
#[global] Instance result_bind : MBind result := fun A B k m => Js.bind m k.

(** ** Shared value types *)

(** [BigNumberish = string | number | BigNumber]; numbers are taken to be
    integers. *)
Inductive BigNumberish : Type :=
| BNNumber (n : Z)
| BNString (s : string)
| BNBig (v : Z).

(** *** EIP-712 typed data, as handed to the signer *)

Record TypedDataDomain : Type := {
  name : string;
  version : string;
  chainId : Z;
  verifyingContract : string;
}.

(** A schema: struct names with their ordered fields, each a name and a
    Solidity type. *)
Definition TypedDataTypes : Type := list (string * list (string * string)).

(** The join, exit and swap kinds are numeric enumerations (field type
    [uint8]). *)
Definition SafeguardPoolSwapKind : Type := Z.
Definition SafeguardPoolJoinKind : Type := Z.
Definition SafeguardPoolExitKind : Type := Z.

Record SwapStruct : Type := {
  swap_kind : SafeguardPoolSwapKind;
  swap_poolId : string;
  swap_tokenIn : string;
  swap_tokenOut : string;
  swap_amount : BigNumberish;
  swap_recipient : string;
  swap_deadline : BigNumberish;
  swap_swapData : string;
}.

Record JoinExactTokensStruct : Type := {
  join_kind : SafeguardPoolJoinKind;
  join_poolId : string;
  join_recipient : string;
  join_deadline : BigNumberish;
  join_joinData : string;
}.

Record ExitExactTokensStruct : Type := {
  exit_kind : SafeguardPoolExitKind;
  exit_poolId : string;
  exit_recipient : string;
  exit_deadline : BigNumberish;
  exit_exitData : string;
}.

Inductive TypedDataValue : Type :=
| SwapValue (v : SwapStruct)
| JoinValue (v : JoinExactTokensStruct)
| ExitValue (v : ExitExactTokensStruct).

(** [SignerWithAddress]: an object exposing an address and the signing
    capability.  [_signTypedData] answers with a promise; what the promise
    settles to is a [result]. *)
Record SignerWithAddress : Type := {
  address : string;
  _signTypedData :
    TypedDataDomain -> TypedDataTypes -> TypedDataValue -> result string;
}.

(** [Account]: a raw address string or an object exposing an address. *)
Inductive Account : Type :=
| AccountString (s : string)
| AccountObject (o : SignerWithAddress).

(** The enumeration members [./kinds] gives the two signers. *)
Class SafeguardKinds : Type := {
  EXACT_TOKENS_IN_FOR_BPT_OUT : SafeguardPoolJoinKind;
  BPT_IN_FOR_EXACT_TOKENS_OUT : SafeguardPoolExitKind;
}.

(** [!x] for an optional [BigNumberish]: [undefined], the number [0] and the
    empty string are falsy, a [BigNumber] object never is. *)
Definition falsy_bn (x : option BigNumberish) : bool :=
  match x with
  | None => true
  | Some (BNNumber n) => n =? 0
  | Some (BNString s) => if string_dec s "" then true else false
  | Some (BNBig _) => false
  end.

(** [if (!x) x = d] on an optional [BigNumberish]. *)
Definition default_bn (x : option BigNumberish) (d : BigNumberish)
  : BigNumberish :=
  match x with
  | Some v => if falsy_bn x then d else v
  | None => d
  end.

(** [!x] for an optional boolean. *)
Definition falsy_bool (x : option bool) : bool :=
  match x with Some true => false | _ => true end.

(** [!x] for an optional account: only the string variant can be falsy. *)
Definition falsy_account (x : option Account) : bool :=
  match x with
  | None => true
  | Some (AccountString s) => if string_dec s "" then true else false
  | Some (AccountObject _) => false
  end.

(** The constants the converter imports from [../../numbers], [../../time]
    and [../../constants]; their values play no part in the conversions. *)
Class HelperConstants : Type := {
  ZERO_ADDRESS : string;
  DAY : Z;
  MONTH : Z;
  FP_100_PCT : BigNumberish;
  fp : Q -> BigNumberish;
}.

(** ** The [ethers.utils] functions behind [toBytes32] *)

Module Ethers.

Definition HexCharacters : list ascii :=
  list_ascii_of_string "0123456789abcdef".

Definition hex_char (d : Z) : ascii :=
  nth (Z.to_nat d) HexCharacters "0"%char.

(** The digit loop of [hexlify] on a number:
    [while (value) { hex = HexCharacters[value & 0xf] + hex;
                     value = Math.floor(value / 16); }]. *)
Fixpoint hex_loop (fuel : nat) (value : Z) (hex : string) : string :=
  match fuel with
  | O => hex
  | S fuel' =>
      if value =? 0 then hex
      else hex_loop fuel' (value / 16)
             (String (hex_char (Z.land value 15)) hex)
  end.

Definition hex_digits (value : Z) : string :=
  hex_loop (S (Z.to_nat (Z.log2 value))) value "".

(** An even number of digits, ["00"] for zero. *)
Definition even_hex (value : Z) : string :=
  let hex := hex_digits value in
  if (String.length hex =? 0)%nat then "00"
  else if Nat.even (String.length hex) then hex
  else String "0" hex.

Definition is_hex_digit (c : ascii) : bool :=
  let n := nat_of_ascii c in
  ((48 <=? n) && (n <=? 57) || (65 <=? n) && (n <=? 70)
   || (97 <=? n) && (n <=? 102))%nat.

Definition to_lower (c : ascii) : ascii :=
  let n := nat_of_ascii c in
  if ((65 <=? n) && (n <=? 90))%nat then ascii_of_nat (n + 32) else c.

(** [isHexString]: ["0x"] followed by hexadecimal digits. *)
Definition isHexString (s : string) : bool :=
  match s with
  | String "0" (String "x" digits) =>
      forallb is_hex_digit (list_ascii_of_string digits)
  | _ => false
  end.

Definition lower_string (s : string) : string :=
  string_of_list_ascii (map to_lower (list_ascii_of_string s)).

(** [hexlify(value)]: a number must be a safe unsigned integer; a
    [BigNumber] answers with its own hexadecimal text, which for a
    negative one is no hex string; a string must be an even-length hex
    string. *)
Definition hexlify (value : BigNumberish) : result string :=
  match value with
  | BNNumber n =>
      if (n <? 0) || (9007199254740991 <=? n)
      then Throw "invalid hexlify value"
      else Ok ("0x" +:+ even_hex n)
  | BNBig v =>
      if v <? 0 then Ok ("-0x" +:+ even_hex (- v))
      else Ok ("0x" +:+ even_hex v)
  | BNString s =>
      if isHexString s then
        if Nat.even (String.length s) then Ok (lower_string s)
        else Throw "hex data is odd-length"
      else Throw "invalid hexlify value"
  end.

(** The padding loop of [hexZeroPad]:
    [while (value.length < 2 * length + 2)
       value = "0x0" + value.substring(2)]. *)
Definition pad_digits (digits : string) (width : nat) : string :=
  string_of_list_ascii
    (replicate (width - String.length digits) "0"%char) +:+ digits.

Definition hexZeroPad (value : string) (len : nat) : result string :=
  if isHexString value then
    if (2 * len + 2 <? String.length value)%nat
    then Throw "value out of range"
    else Ok ("0x" +:+ pad_digits (String.substring 2 (String.length value - 2) value)
                                 (2 * len))
  else Throw "invalid hex string".

(** Reading a hex string back, for stating what an encoding denotes. *)
Definition digit_value (c : ascii) : Z :=
  let n := Z.of_nat (nat_of_ascii c) in
  if (48 <=? n) && (n <=? 57) then n - 48
  else if (97 <=? n) && (n <=? 102) then n - 87
  else if (65 <=? n) && (n <=? 70) then n - 55
  else 0.

Definition hex_value (s : string) : option Z :=
  if isHexString s then
    Some (fold_left (fun acc c => 16 * acc + digit_value c)
            (list_ascii_of_string (String.substring 2 (String.length s - 2) s)) 0)
  else None.

End Ethers.

(** ** Raw and canonical structures *)

(** Vault deployments ([../vault/types]). *)
Record RawVaultDeployment : Type := {
  rv_mocked : option bool;
  rv_admin : option SignerWithAddress;
  rv_pauseWindowDuration : option BigNumberish;
  rv_bufferPeriodDuration : option BigNumberish;
  rv_maxYieldValue : option BigNumberish;
  rv_maxAUMValue : option BigNumberish;
  rv_from : option SignerWithAddress;
}.

Record VaultDeployment : Type := {
  v_mocked : bool;
  v_admin : option SignerWithAddress;
  v_pauseWindowDuration : BigNumberish;
  v_bufferPeriodDuration : BigNumberish;
  v_maxYieldValue : BigNumberish;
  v_maxAUMValue : BigNumberish;
}.

(** The object literal [{}]. *)
Definition emptyRawVaultDeployment : RawVaultDeployment :=
  {| rv_mocked := None; rv_admin := None;
     rv_pauseWindowDuration := None; rv_bufferPeriodDuration := None;
     rv_maxYieldValue := None; rv_maxAUMValue := None; rv_from := None |}.

(** Token deployments ([../tokens/types]). *)
Record TokenDeploymentObject : Type := {
  rt_name : prop string;
  rt_symbol : prop string;
  rt_decimals : prop Z;
  rt_from : prop SignerWithAddress;
}.

(** [RawTokenDeployment = string | { name?, symbol?, decimals?, from? }]. *)
Inductive RawTokenDeployment : Type :=
| RawSymbol (s : string)
| RawObject (o : TokenDeploymentObject).

(** [RawTokensDeployment = number | NAry<RawTokenDeployment>]; a count is
    an integer, which [Array(n)] may refuse as a length. *)
Inductive RawTokensDeployment : Type :=
| RawCount (n : Z)
| RawSingle (p : RawTokenDeployment)
| RawList (l : list RawTokenDeployment).

Record TokenDeployment : Type := {
  t_from : option SignerWithAddress;
  t_name : string;
  t_symbol : string;
  t_decimals : Z;
}.

Definition emptyTokenObject : TokenDeploymentObject :=
  {| rt_name := Absent; rt_symbol := Absent;
     rt_decimals := Absent; rt_from := Absent |}.

(** The object literal [{ symbol: s }]. *)
Definition symbolOnly (s : string) : TokenDeploymentObject :=
  {| rt_name := Absent; rt_symbol := Value s;
     rt_decimals := Absent; rt_from := Absent |}.

(** Mints and approvals ([../tokens/types]): recipient and sender are each
    one value or a list; the sender and the amount are optional. *)
Record RawTokenTransfer : Type := {
  r_to : NAry Account;
  r_amount : option BigNumberish;
  r_from : option (NAry SignerWithAddress);
}.

Definition RawTokenMint : Type := NAry RawTokenTransfer.
Definition RawTokenApproval : Type := NAry RawTokenTransfer.

(** A single-recipient, single-sender record: [TokenMint], [TokenApproval]. *)
Record TokenTransfer : Type := {
  x_to : Account;
  x_amount : option BigNumberish;
  x_from : option SignerWithAddress;
}.

Definition TokenMint : Type := TokenTransfer.
Definition TokenApproval : Type := TokenTransfer.

(** [Array.isArray(from)] for the optional sender. *)
Definition from_is_array (from : option (NAry SignerWithAddress)) : bool :=
  match from with Some (Many _) => true | _ => false end.

(** The sender where it is not a list ([undefined] included). *)
Definition from_single (from : option (NAry SignerWithAddress))
  : option SignerWithAddress :=
  match from with Some (One s) => Some s | _ => None end.

(** Pool rights; a flag may be left out. *)
Record BasePoolRights : Type := {
  canTransferOwnership : option bool;
  canChangeSwapFee : option bool;
  canUpdateMetadata : option bool;
}.

(** Modelled from the spec: the tokens of a [TokenList]
    ([../tokens/TokenList], not among the sources); a token is known here
    by its address. *)
Record Token : Type := { token_address : string }.

(** Modelled from the spec: [TokenList] ([../tokens/TokenList]) is not among
    the sources; the token list collaborator "exposes length and an
    ordered-map operation". *)
Record TokenList : Type := { tokens : list Token }.

(** Modelled from the spec: [tokens.length], the token count. *)
Definition TokenList_length (l : TokenList) : nat := length (tokens l).

(** Modelled from the spec: [tokens.map((t, i) => ...)], the ordered map,
    which hands the callback each token with its position. *)
Definition TokenList_map {B} (f : Token -> nat -> B) (l : TokenList) : list B :=
  imap (fun i t => f t i) (tokens l).

(** Modelled from the spec: [new TokenList()], the list with no token, so
    that the token count of a deployment naming no tokens is 0. *)
Definition newTokenList : TokenList := {| tokens := [] |}.

(** Safeguard pool deployments ([../pools/safeguard/types]). *)
Record RawSafeguardPoolDeployment : Type := {
  rs_tokens : option TokenList;
  rs_oracles : option (list Account);
  rs_maxOracleTimeouts : option (list BigNumberish);
  rs_stableTokens : option (list bool);
  rs_flexibleOracles : option (list bool);
  rs_assetManagers : option (list string);
  rs_pauseWindowDuration : option BigNumberish;
  rs_bufferPeriodDuration : option BigNumberish;
  rs_signer : option SignerWithAddress;
  rs_maxPerfDev : option BigNumberish;
  rs_maxTargetDev : option BigNumberish;
  rs_maxPriceDev : option BigNumberish;
  rs_perfUpdateInterval : option BigNumberish;
  rs_yearlyFees : option BigNumberish;
  rs_mustAllowlistLPs : option bool;
  rs_owner : option Account;
  rs_from : option SignerWithAddress;
}.

(** One token's oracle parameters; reading a list past its end gives
    [undefined]. *)
Record InitialOracleParams : Type := {
  oracle : option Account;
  maxTimeout : option BigNumberish;
  isStable : option bool;
  isFlexibleOracle : option bool;
}.

Record InitialSafeguardParams : Type := {
  signer : option SignerWithAddress;
  maxPerfDev : BigNumberish;
  maxTargetDev : BigNumberish;
  perfUpdateInterval : BigNumberish;
  maxPriceDev : option BigNumberish;
  yearlyFees : BigNumberish;
  mustAllowlistLPs : bool;
}.

Record SafeguardPoolDeployment : Type := {
  s_tokens : TokenList;
  s_assetManagers : list string;
  s_pauseWindowDuration : BigNumberish;
  s_bufferPeriodDuration : BigNumberish;
  s_owner : string;
  s_from : option SignerWithAddress;
  s_oracleParameters : list InitialOracleParams;
  s_safeguardParameters : InitialSafeguardParams;
}.

(** [if (!xs) xs = Array(n).fill(d)]: an array, even an empty one, is
    truthy. *)
Definition default_list {A} (xs : option (list A)) (n : nat) (d : A) : list A :=
  match xs with
  | Some l => l
  | None => replicate n d
  end.

(** ** The converter *)

(** [i % 19] is JavaScript's remainder, which truncates. *)
Definition computeDecimalsFromIndex (i : Z) : Z := Z.rem i 19.

Section Converter.
Context `{HelperConstants}.

Definition toVaultDeployment (params : RawVaultDeployment) : VaultDeployment :=
  let mocked := if falsy_bool (rv_mocked params) then false else true in
  let admin :=
    match rv_admin params with Some a => Some a | None => rv_from params end in
  let pauseWindowDuration :=
    default_bn (rv_pauseWindowDuration params) (BNNumber 0) in
  let bufferPeriodDuration :=
    default_bn (rv_bufferPeriodDuration params) (BNNumber 0) in
  let maxYieldValue := default_bn (rv_maxYieldValue params) FP_100_PCT in
  let maxAUMValue := default_bn (rv_maxAUMValue params) FP_100_PCT in
  {| v_mocked := mocked; v_admin := admin;
     v_pauseWindowDuration := pauseWindowDuration;
     v_bufferPeriodDuration := bufferPeriodDuration;
     v_maxYieldValue := maxYieldValue; v_maxAUMValue := maxAUMValue |}.

Definition toTokenDeployment (params : RawTokenDeployment) : TokenDeployment :=
  let params :=
    match params with RawSymbol s => symbolOnly s | RawObject o => o end in
  {| t_from := Js.get (rt_from params);
     t_name := Js.nullish (Js.get (rt_name params)) "Token";
     t_symbol := Js.nullish (Js.get (rt_symbol params)) "TKN";
     t_decimals := Js.nullish (Js.get (rt_decimals params)) 18 |}.

Definition toTokenDeployments (params : RawTokensDeployment)
    (from : option SignerWithAddress) (varyDecimals : bool)
  : result (list TokenDeployment) :=
  params ←
    match params with
    | RawCount n => Js.Array_fill n (RawObject emptyTokenObject)
    | RawSingle p => Ok [p]
    | RawList l => Ok l
    end;
  mret (imap (fun i param =>
    let param :=
      match param with
      | RawSymbol s =>
          {| rt_name := Absent; rt_symbol := Value s;
             rt_decimals := Absent; rt_from := as_prop from |}
      | RawObject o => o
      end in
    let args :=
      {| rt_symbol :=
           as_prop (Js.assign (Some ("TK" +:+ Js.index_to_string i))
                      (rt_symbol param));
         rt_name :=
           as_prop (Js.assign (Some ("Token " +:+ Js.index_to_string i))
                      (rt_name param));
         rt_decimals :=
           as_prop (Js.assign
                      (Some (if varyDecimals
                             then computeDecimalsFromIndex (Z.of_nat i)
                             else 18))
                      (rt_decimals param));
         rt_from := as_prop (Js.assign from (rt_from param)) |} in
    toTokenDeployment (RawObject args)) params).

(** [toTokenMints] on one element, the part after the array test. *)
Definition toTokenMints1 (params : RawTokenTransfer) : result (list TokenMint) :=
  let amount := r_amount params in
  let from := r_from params in
  match r_to params with
  | One to =>
      if from_is_array from then Throw "Inconsistent mint sender length"
      else Ok [ {| x_to := to; x_amount := amount; x_from := from_single from |} ]
  | Many to =>
      match from with
      | Some (Many senders) =>
          if negb (length to =? length senders)%nat
          then Throw "Inconsistent mint sender length"
          else Ok (imap (fun i to =>
                     {| x_to := to; x_amount := amount; x_from := senders !! i |}) to)
      | _ =>
          Ok (imap (fun i to =>
                {| x_to := to; x_amount := amount; x_from := from_single from |}) to)
      end
  end.

Definition toTokenMints (params : RawTokenMint) : result (list TokenMint) :=
  match params with
  | Many l => Js.flatMap toTokenMints1 l
  | One p => toTokenMints1 p
  end.

(** [toTokenApprovals] on one element; nothing in it throws. *)
Definition toTokenApprovals1 (params : RawTokenTransfer) : list TokenApproval :=
  let amount := r_amount params in
  let from := r_from params in
  let to := match r_to params with Many l => l | One a => [a] end in
  to ≫= (fun to =>
    match from with
    | Some (Many senders) =>
        (fun from => {| x_to := to; x_amount := amount; x_from := Some from |})
          <$> senders
    | _ => [ {| x_to := to; x_amount := amount; x_from := from_single from |} ]
    end).

Definition toTokenApprovals (params : RawTokenApproval)
  : result (list TokenApproval) :=
  match params with
  | Many l => Js.flatMap (fun p => Ok (toTokenApprovals1 p)) l
  | One p => Ok (toTokenApprovals1 p)
  end.

Definition toAddress (to : option Account) : string :=
  match to with
  | Some a =>
      if falsy_account to then ZERO_ADDRESS
      else match a with
           | AccountString s => s
           | AccountObject o => address o
           end
  | None => ZERO_ADDRESS
  end.

Definition toAddresses (to : list Account) : list string :=
  (fun a => toAddress (Some a)) <$> to.

Definition toBytes32 (value : BigNumberish) : result string :=
  hexy ← Ethers.hexlify value;
  Ethers.hexZeroPad hexy 32.

Definition toEncodedBasePoolRights (basePoolRights : BasePoolRights)
  : result string :=
  let value := 0 in
  let value :=
    if falsy_bool (canTransferOwnership basePoolRights) then value else value + 1 in
  let value :=
    if falsy_bool (canChangeSwapFee basePoolRights) then value else value + 2 in
  let value :=
    if falsy_bool (canUpdateMetadata basePoolRights) then value else value + 4 in
  toBytes32 (BNNumber value).

(** [params.owner] is also overwritten in the caller's object when it was
    falsy; the returned deployment does not show it. *)
Definition toSafeguardPoolDeployment (params : RawSafeguardPoolDeployment)
  : SafeguardPoolDeployment :=
  let owner :=
    if falsy_account (rs_owner params) then Some (AccountString ZERO_ADDRESS)
    else rs_owner params in
  let tokens := Js.nullish (rs_tokens params) newTokenList in
  let oracles :=
    default_list (rs_oracles params) (TokenList_length tokens)
      (AccountString ZERO_ADDRESS) in
  let maxOracleTimeouts :=
    default_list (rs_maxOracleTimeouts params) (TokenList_length tokens)
      (BNNumber (1 * DAY)) in
  let stableTokens :=
    default_list (rs_stableTokens params) (TokenList_length tokens) true in
  let flexibleOracles :=
    default_list (rs_flexibleOracles params) (TokenList_length tokens) false in
  let pauseWindowDuration :=
    default_bn (rs_pauseWindowDuration params) (BNNumber (3 * MONTH)) in
  let bufferPeriodDuration :=
    default_bn (rs_bufferPeriodDuration params) (BNNumber MONTH) in
  let assetManagers :=
    default_list (rs_assetManagers params) (TokenList_length tokens)
      ZERO_ADDRESS in
  let maxPerfDev := default_bn (rs_maxPerfDev params) (fp (1 # 10)) in
  let maxTargetDev := default_bn (rs_maxTargetDev params) (fp (2 # 10)) in
  let perfUpdateInterval :=
    default_bn (rs_perfUpdateInterval params) (BNNumber (1 * DAY)) in
  let yearlyFees := default_bn (rs_yearlyFees params) (BNNumber 0) in
  let mustAllowlistLPs := Js.nullish (rs_mustAllowlistLPs params) false in
  let oracleParameters :=
    TokenList_map (fun t i =>
      {| oracle := oracles !! i;
         maxTimeout := maxOracleTimeouts !! i;
         isStable := stableTokens !! i;
         isFlexibleOracle := flexibleOracles !! i |}) tokens in
  let safeguardParameters :=
    {| signer := rs_signer params;
       maxPerfDev := maxPerfDev;
       maxTargetDev := maxTargetDev;
       perfUpdateInterval := perfUpdateInterval;
       maxPriceDev := rs_maxPriceDev params;
       yearlyFees := yearlyFees;
       mustAllowlistLPs := mustAllowlistLPs |} in
  {| s_tokens := tokens;
     s_assetManagers := assetManagers;
     s_pauseWindowDuration := pauseWindowDuration;
     s_bufferPeriodDuration := bufferPeriodDuration;
     s_owner := toAddress owner;
     s_from := rs_from params;
     s_oracleParameters := oracleParameters;
     s_safeguardParameters := safeguardParameters |}.

End Converter.

(** ** The typed-data signers *)

Definition DOMAIN_NAME : string := "Pool Safeguard".
Definition DOMAIN_VERSION : string := "1".

Definition SwapStructTypes : TypedDataTypes :=
  [ ("SwapStruct",
     [ ("kind", "uint8"); ("poolId", "bytes32"); ("tokenIn", "address");
       ("tokenOut", "address"); ("amount", "uint256");
       ("recipient", "address"); ("deadline", "uint256");
       ("swapData", "bytes") ]) ].

Definition JoinExactTokensStructTypes : TypedDataTypes :=
  [ ("JoinExactTokensStruct",
     [ ("kind", "uint8"); ("poolId", "bytes32"); ("recipient", "address");
       ("deadline", "uint256"); ("joinData", "bytes") ]) ].

Definition ExitExactTokensStructTypes : TypedDataTypes :=
  [ ("ExitExactTokensStruct",
     [ ("kind", "uint8"); ("poolId", "bytes32"); ("recipient", "address");
       ("deadline", "uint256"); ("exitData", "bytes") ]) ].

Section Signers.
Context `{SafeguardKinds}.

Definition signSwapData (chainId : Z) (contractAddress : string)
    (kind : SafeguardPoolSwapKind) (poolId tokenIn tokenOut : string)
    (amount : BigNumberish) (recipient : string) (deadline : BigNumberish)
    (swapData : string) (signer : SignerWithAddress) : result string :=
  let domain :=
    {| name := DOMAIN_NAME; version := DOMAIN_VERSION;
       chainId := chainId; verifyingContract := contractAddress |} in
  let types := SwapStructTypes in
  let value :=
    {| swap_kind := kind; swap_poolId := poolId; swap_tokenIn := tokenIn;
       swap_tokenOut := tokenOut; swap_amount := amount;
       swap_recipient := recipient; swap_deadline := deadline;
       swap_swapData := swapData |} in
  signature ← _signTypedData signer domain types (SwapValue value);
  mret signature.

Definition signJoinExactTokensData (chainId : Z) (contractAddress : string)
    (poolId recipient : string) (deadline : BigNumberish)
    (joinData : string) (signer : SignerWithAddress) : result string :=
  let domain :=
    {| name := DOMAIN_NAME; version := DOMAIN_VERSION;
       chainId := chainId; verifyingContract := contractAddress |} in
  let types := JoinExactTokensStructTypes in
  let value :=
    {| join_kind := EXACT_TOKENS_IN_FOR_BPT_OUT; join_poolId := poolId;
       join_recipient := recipient; join_deadline := deadline;
       join_joinData := joinData |} in
  signature ← _signTypedData signer domain types (JoinValue value);
  mret signature.

Definition signExitExactTokensData (chainId : Z) (contractAddress : string)
    (poolId recipient : string) (deadline : BigNumberish)
    (exitData : string) (signer : SignerWithAddress) : result string :=
  let domain :=
    {| name := DOMAIN_NAME; version := DOMAIN_VERSION;
       chainId := chainId; verifyingContract := contractAddress |} in
  let types := ExitExactTokensStructTypes in
  let value :=
    {| exit_kind := BPT_IN_FOR_EXACT_TOKENS_OUT; exit_poolId := poolId;
       exit_recipient := recipient; exit_deadline := deadline;
       exit_exitData := exitData |} in
  signature ← _signTypedData signer domain types (ExitValue value);
  mret signature.

End Signers.

(** ** Vocabulary of the properties *)

(** The members of a one-or-many value, in order. *)
Definition elements {A} (x : NAry A) : list A :=
  match x with One a => [a] | Many l => l end.

(** The sender that goes with the recipient at position [i]: the one at the
    same position of a sender list, else the one shared sender (if any). *)
Definition sender_for (from : option (NAry SignerWithAddress)) (i : nat)
  : option SignerWithAddress :=
  match from with
  | Some (Many senders) => senders !! i
  | Some (One s) => Some s
  | None => None
  end.

(** "The recipient field and the sender field are both lists of unequal
    length." *)
Definition both_lists_unequal (p : RawTokenTransfer) : Prop :=
  exists recipients senders,
    r_to p = Many recipients /\ r_from p = Some (Many senders) /\
    length recipients <> length senders.

(** The sender field is a list and the recipient field is not a list of that
    length: it is a single recipient, or a list of another length. *)
Definition sender_list_unmatched (p : RawTokenTransfer) : Prop :=
  exists senders,
    r_from p = Some (Many senders) /\
    forall recipients, r_to p = Many recipients ->
                       length recipients <> length senders.

(** One mint record per recipient, with the shared amount. *)
Definition mint_records (p : RawTokenTransfer) : list TokenMint :=
  imap (fun i to =>
          {| x_to := to; x_amount := r_amount p;
             x_from := sender_for (r_from p) i |})
       (elements (r_to p)).

(** What a flag counts as: set only when present and true. *)
Definition flag (b : option bool) : bool :=
  match b with Some true => true | _ => false end.

(** ** Values for the examples *)

Definition referenceConstants : HelperConstants :=
  {| ZERO_ADDRESS := "0x0000000000000000000000000000000000000000";
     DAY := 86400;
     MONTH := 30 * 86400;
     FP_100_PCT := BNBig (10 ^ 18);
     fp := fun q => BNBig (Qnum q * 10 ^ 18 / Z.pos (Qden q)) |}.

Definition referenceKinds : SafeguardKinds :=
  {| EXACT_TOKENS_IN_FOR_BPT_OUT := 2; BPT_IN_FOR_EXACT_TOKENS_OUT := 1 |}.

(** A deterministic stub signer: its signature spells out the domain it was
    given and the kind of the value. *)
Definition value_kind (v : TypedDataValue) : Z :=
  match v with
  | SwapValue s => swap_kind s
  | JoinValue j => join_kind j
  | ExitValue e => exit_kind e
  end.

Definition stubSigner (addr : string) : SignerWithAddress :=
  {| address := addr;
     _signTypedData := fun domain types value =>
       Ok (name domain +:+ "/" +:+ version domain +:+ "/" +:+
           Js.index_to_string (Z.to_nat (chainId domain)) +:+ "/" +:+
           verifyingContract domain +:+ "/" +:+
           Js.index_to_string (Z.to_nat (value_kind value))) |}.

(** A signer that rejects every request. *)
Definition rejectingSigner (addr : string) : SignerWithAddress :=
  {| address := addr;
     _signTypedData := fun _ _ _ => Throw "user rejected signing" |}.

Definition lp : SignerWithAddress := stubSigner "0x00000000000000000000000000000000000000a1".
Definition trader : SignerWithAddress := stubSigner "0x00000000000000000000000000000000000000b2".
Definition other : SignerWithAddress := stubSigner "0x00000000000000000000000000000000000000c3".
Definition vault : Account := AccountString "0x00000000000000000000000000000000000000d4".
Definition router : Account := AccountString "0x00000000000000000000000000000000000000e5".

Definition DAI : Token := {| token_address := "0x0000000000000000000000000000000000000da1" |}.
Definition MKR : Token := {| token_address := "0x0000000000000000000000000000000000000a4b" |}.

(** Transfers used as mint and approval inputs. *)
Definition oneRecipientSenderList : RawTokenTransfer :=
  {| r_to := One vault; r_amount := Some (BNNumber 7);
     r_from := Some (Many [lp]) |}.

Definition twoRecipientsTwoSenders : RawTokenTransfer :=
  {| r_to := Many [vault; router]; r_amount := Some (BNNumber 7);
     r_from := Some (Many [lp; trader]) |}.

Definition twoRecipientsThreeSenders : RawTokenTransfer :=
  {| r_to := Many [vault; router]; r_amount := Some (BNNumber 7);
     r_from := Some (Many [lp; trader; other]) |}.

(** A raw pool deployment naming two tokens and nothing else. *)
Definition twoTokenPool : RawSafeguardPoolDeployment :=
  {| rs_tokens := Some {| tokens := [DAI; MKR] |};
     rs_oracles := None; rs_maxOracleTimeouts := None;
     rs_stableTokens := None; rs_flexibleOracles := None;
     rs_assetManagers := None; rs_pauseWindowDuration := None;
     rs_bufferPeriodDuration := None; rs_signer := None;
     rs_maxPerfDev := None; rs_maxTargetDev := None; rs_maxPriceDev := None;
     rs_perfUpdateInterval := None; rs_yearlyFees := None;
     rs_mustAllowlistLPs := None; rs_owner := None; rs_from := None |}.

(** ** The vault parameters of a pool deployment *)

(** A raw pool deployment together with the two further properties that
    only [toRawVaultDeployment] reads, [admin] and [fromFactory]. *)
Record RawSafeguardPoolVaultParams : Type := {
  rs_pool : RawSafeguardPoolDeployment;
  rs_admin : option SignerWithAddress;
  rs_fromFactory : option bool;
}.

Definition toRawVaultDeployment (params : RawSafeguardPoolVaultParams)
  : RawVaultDeployment :=
  let admin :=
    match rs_admin params with
    | Some a => Some a
    | None => rs_from (rs_pool params)
    end in
  let pauseWindowDuration :=
    default_bn (rs_pauseWindowDuration (rs_pool params)) (BNNumber 0) in
  let bufferPeriodDuration :=
    default_bn (rs_bufferPeriodDuration (rs_pool params)) (BNNumber 0) in
  let mocked :=
    match rs_fromFactory params with
    | Some fromFactory => negb fromFactory
    | None => true
    end in
  {| rv_mocked := Some mocked; rv_admin := admin;
     rv_pauseWindowDuration := Some pauseWindowDuration;
     rv_bufferPeriodDuration := Some bufferPeriodDuration;
     rv_maxYieldValue := None; rv_maxAUMValue := None; rv_from := None |}.

(** ** Vocabulary of the further properties *)

(** The number a list of hexadecimal digits denotes, most significant
    first. *)
Definition hex_step (acc : Z) (c : ascii) : Z := 16 * acc + Ethers.digit_value c.

Definition digits_value (l : list ascii) : Z := fold_left hex_step l 0.


(** How many senders a transfer names: those of a sender list, else one
    (the shared sender, or none at all). *)
Definition senders_count (from : option (NAry SignerWithAddress)) : nat :=
  match from with
  | Some (Many senders) => length senders
  | _ => 1%nat
  end.

(** The three flags of a set of pool rights. *)
Definition flags (r : BasePoolRights) : bool * bool * bool :=
  (flag (canTransferOwnership r), flag (canChangeSwapFee r),
   flag (canUpdateMetadata r)).

(** A raw token object with every property given. *)
Definition fullTokenObject (name symbol : string) (decimals : Z)
    (from : SignerWithAddress) : TokenDeploymentObject :=
  {| rt_name := Value name; rt_symbol := Value symbol;
     rt_decimals := Value decimals; rt_from := Value from |}.

(** A raw pool deployment with a token list and a list of oracles, all
    else absent. *)
Definition poolWithOracles (tokens : list Token) (oracles : list Account)
  : RawSafeguardPoolDeployment :=
  {| rs_tokens := Some {| tokens := tokens |};
     rs_oracles := Some oracles; rs_maxOracleTimeouts := None;
     rs_stableTokens := None; rs_flexibleOracles := None;
     rs_assetManagers := None; rs_pauseWindowDuration := None;
     rs_bufferPeriodDuration := None; rs_signer := None;
     rs_maxPerfDev := None; rs_maxTargetDev := None; rs_maxPriceDev := None;
     rs_perfUpdateInterval := None; rs_yearlyFees := None;
     rs_mustAllowlistLPs := None; rs_owner := None; rs_from := None |}.

(** ** Properties of the result monad *)

Lemma bind_Ok_r {A} (m : result A) : Js.bind m Ok = m.
Proof. destruct m; reflexivity. Qed.

Lemma flatMap_Ok {A B} (f : A -> list B) (xs : list A) :
  Js.flatMap (fun x => Ok (f x)) xs = Ok (xs ≫= f).
Proof.
  induction xs as [|x xs IH]; simpl; [reflexivity|].
  rewrite IH. reflexivity.
Qed.

Lemma flatMap_cons_Ok {A B} (f : A -> result (list B)) x xs ys zs :
  f x = Ok ys -> Js.flatMap f xs = Ok zs -> Js.flatMap f (x :: xs) = Ok (ys ++ zs).
Proof. intros Hx Hxs. simpl. rewrite Hx. simpl. rewrite Hxs. reflexivity. Qed.

(** ** Addresses *)

Section AddressProperties.
Context `{HelperConstants}.

Example toAddress_of_object :
  toAddress (Some (AccountObject lp)) = "0x00000000000000000000000000000000000000a1".
Proof. reflexivity. Qed.

Lemma toAddress_of_empty_string : toAddress (Some (AccountString "")) = ZERO_ADDRESS.
Proof. reflexivity. Qed.

(** C7, as amended: [toAddress] returns the zero address when the input is
    absent, and also when it is the empty string (which is falsy); it
    returns a string input itself when that string is not empty, and the
    [address] field of an account-like object. *)
Theorem toAddress_cases :
  toAddress None = ZERO_ADDRESS /\
  toAddress (Some (AccountString "")) = ZERO_ADDRESS /\
  (forall s : string, s <> "" -> toAddress (Some (AccountString s)) = s) /\
  (forall o : SignerWithAddress, toAddress (Some (AccountObject o)) = address o).
Proof.
  repeat split; try reflexivity.
  intros s Hs. unfold toAddress, falsy_account.
  destruct (string_dec s "") as [E|_]; [contradiction|reflexivity].
Qed.

End AddressProperties.

(** C7, as stated, fails: the empty string is a string input, and
    [toAddress] answers it with the zero address, not with the string. *)
Lemma toAddress_empty_string_not_itself :
  @toAddress referenceConstants (Some (AccountString "")) <> "".
Proof. discriminate. Qed.

Lemma toAddress_cases_witness :
  "0x00000000000000000000000000000000000000d4" <> "" /\
  @toAddress referenceConstants (Some vault)
  = "0x00000000000000000000000000000000000000d4".
Proof.
  split; [discriminate|].
  apply (proj1 (proj2 (proj2 (@toAddress_cases referenceConstants)))).
  discriminate.
Defined.

(** ** Vault deployments *)

Section VaultProperties.
Context `{HelperConstants}.

(** C6: the empty raw deployment becomes a vault deployment whose
    [maxYieldValue] and [maxAUMValue] are the 100% constant, whose two
    durations are 0 and whose [mocked] flag is false. *)
Theorem toVaultDeployment_empty :
  toVaultDeployment emptyRawVaultDeployment
  = {| v_mocked := false; v_admin := None;
       v_pauseWindowDuration := BNNumber 0;
       v_bufferPeriodDuration := BNNumber 0;
       v_maxYieldValue := FP_100_PCT; v_maxAUMValue := FP_100_PCT |}.
Proof. reflexivity. Qed.

(** A zero given as a number is replaced like an absent value, a zero
    given as a [BigNumber] is kept. *)
Example toVaultDeployment_zero_yield :
  v_maxYieldValue
    (toVaultDeployment
       {| rv_mocked := Some true; rv_admin := Some lp;
          rv_pauseWindowDuration := Some (BNNumber 5);
          rv_bufferPeriodDuration := None;
          rv_maxYieldValue := Some (BNNumber 0);
          rv_maxAUMValue := Some (BNBig 0); rv_from := None |})
  = FP_100_PCT.
Proof. reflexivity. Qed.

End VaultProperties.

(** ** Token deployments *)

Lemma computeDecimalsFromIndex_index (i : nat) :
  computeDecimalsFromIndex (Z.of_nat i) = Z.of_nat (i mod 19).
Proof.
  unfold computeDecimalsFromIndex.
  rewrite Z.rem_mod_nonneg by lia.
  rewrite Nat2Z.inj_mod. reflexivity.
Qed.

(** C5: a bare symbol is shorthand for the object holding just that symbol;
    the deployment has the symbol, name "Token" and 18 decimals, and with no
    symbol at all the symbol is "TKN". *)
Theorem toTokenDeployment_shorthand (s : string) :
  toTokenDeployment (RawSymbol s) = toTokenDeployment (RawObject (symbolOnly s)) /\
  toTokenDeployment (RawSymbol s)
  = {| t_from := None; t_name := "Token"; t_symbol := s; t_decimals := 18 |} /\
  toTokenDeployment (RawObject emptyTokenObject)
  = {| t_from := None; t_name := "Token"; t_symbol := "TKN"; t_decimals := 18 |}.
Proof. repeat split. Qed.

Lemma count_success (n : Z) from (varyDecimals : bool)
    (deployments : list TokenDeployment) :
  toTokenDeployments (RawCount n) from varyDecimals = Ok deployments ->
  0 <= n < 2 ^ 32.
Proof.
  unfold toTokenDeployments, Js.Array_fill.
  destruct (Z.leb_spec 0 n), (Z.ltb_spec n (2 ^ 32)); simpl;
    try discriminate.
  intros _. split; assumption.
Qed.

Lemma count_entries (n : Z) from (varyDecimals : bool) :
  0 <= n < 2 ^ 32 ->
  exists deployments : list TokenDeployment,
    toTokenDeployments (RawCount n) from varyDecimals = Ok deployments /\
    length deployments = Z.to_nat n /\
    forall i : nat, (i < Z.to_nat n)%nat ->
      deployments !! i
      = Some {| t_from := from;
                t_name := "Token " +:+ Js.index_to_string i;
                t_symbol := "TK" +:+ Js.index_to_string i;
                t_decimals := if varyDecimals then Z.of_nat (i mod 19) else 18 |}.
Proof.
  intros Hn. unfold toTokenDeployments, Js.Array_fill.
  destruct (Z.leb_spec 0 n); [|lia].
  destruct (Z.ltb_spec n (2 ^ 32)); [|lia].
  cbn [andb mbind result_bind Js.bind mret result_ret].
  eexists. split; [reflexivity|]. split.
  - rewrite length_imap. apply length_replicate.
  - intros i Hi.
    rewrite list_lookup_imap, lookup_replicate_2 by exact Hi.
    simpl. unfold toTokenDeployment. simpl.
    rewrite computeDecimalsFromIndex_index.
    destruct from, varyDecimals; reflexivity.
Qed.

(** C3, as amended: a bare count [n] that is a natural number below 2^32
    gives exactly [n] deployments, and entry [i] (for [i] below [n]) has
    symbol "TK" followed by [i], name "Token " followed by [i], and 18
    decimals, or [i mod 19] when decimals vary; a count of 2^32 or more is
    no array length, and the call throws a [RangeError]. *)
Theorem toTokenDeployments_count (n : Z) from (varyDecimals : bool) :
  (0 <= n < 2 ^ 32 ->
   exists deployments : list TokenDeployment,
     toTokenDeployments (RawCount n) from varyDecimals = Ok deployments /\
     length deployments = Z.to_nat n /\
     forall i : nat, (i < Z.to_nat n)%nat ->
       deployments !! i
       = Some {| t_from := from;
                 t_name := "Token " +:+ Js.index_to_string i;
                 t_symbol := "TK" +:+ Js.index_to_string i;
                 t_decimals :=
                   if varyDecimals then Z.of_nat (i mod 19) else 18 |}) /\
  (2 ^ 32 <= n ->
   toTokenDeployments (RawCount n) from varyDecimals
   = Throw "Invalid array length").
Proof.
  split; [apply count_entries|].
  intros Hn. unfold toTokenDeployments, Js.Array_fill.
  destruct (Z.leb_spec 0 n); [|lia].
  destruct (Z.ltb_spec n (2 ^ 32)); [lia|]. reflexivity.
Qed.

(** C3, as stated, fails: 2^32 is a natural number, and for that count
    [Array(n)] throws, so no list of deployments is returned. *)
Lemma count_beyond_array_length :
  toTokenDeployments (RawCount 4294967296) None false
  = Throw "Invalid array length" /\
  forall deployments : list TokenDeployment,
    toTokenDeployments (RawCount 4294967296) None false <> Ok deployments.
Proof. split; [reflexivity|discriminate]. Qed.

Lemma toTokenDeployments_count_witness :
  0 <= 21 < 2 ^ 32 /\
  exists deployments : list TokenDeployment,
    toTokenDeployments (RawCount 21) None true = Ok deployments /\
    length deployments = 21%nat /\
    deployments !! 20%nat
    = Some {| t_from := None; t_name := "Token 20"; t_symbol := "TK20";
              t_decimals := 1 |}.
Proof.
  split; [lia|].
  destruct (proj1 (toTokenDeployments_count 21 None true))
    as (deployments & Hok & Hlen & Hat); [lia|].
  exists deployments. split; [exact Hok|]. split; [exact Hlen|].
  apply (Hat 20%nat). change (20 < 21)%nat. lia.
Defined.

Example toTokenDeployments_two :
  toTokenDeployments (RawCount 2) (Some lp) false
  = Ok [ {| t_from := Some lp; t_name := "Token 0"; t_symbol := "TK0"; t_decimals := 18 |};
         {| t_from := Some lp; t_name := "Token 1"; t_symbol := "TK1"; t_decimals := 18 |} ].
Proof. reflexivity. Qed.

Example toTokenDeployments_zero :
  toTokenDeployments (RawCount 0) None true = Ok [].
Proof. reflexivity. Qed.

Example toTokenDeployments_negative :
  toTokenDeployments (RawCount (-1)) None true = Throw "Invalid array length".
Proof. reflexivity. Qed.

Example toTokenDeployments_symbols :
  toTokenDeployments (RawList [RawSymbol "DAI"; RawObject emptyTokenObject]) None false
  = Ok [ {| t_from := None; t_name := "Token 0"; t_symbol := "DAI"; t_decimals := 18 |};
         {| t_from := None; t_name := "Token 1"; t_symbol := "TK1"; t_decimals := 18 |} ].
Proof. reflexivity. Qed.

(** ** Pool rights *)

Example toBytes32_five :
  toBytes32 (BNNumber 5)
  = Ok "0x0000000000000000000000000000000000000000000000000000000000000005".
Proof. reflexivity. Qed.

Example toBytes32_two_bytes :
  toBytes32 (BNBig 4660)
  = Ok "0x0000000000000000000000000000000000000000000000000000000000001234".
Proof. reflexivity. Qed.

Example toBytes32_negative : toBytes32 (BNNumber (-1)) = Throw "invalid hexlify value".
Proof. reflexivity. Qed.

(** C4: the encoding of three pool rights is the hex string of 32 bytes
    (66 characters with the prefix) that reads back as the integer below 8
    whose bits 0, 1 and 2 are the ownership-transfer, swap-fee-change and
    metadata-update flags; ownership transfer with metadata update, the
    swap-fee flag false or absent, encodes 5. *)
Theorem toEncodedBasePoolRights_bits :
  (forall r : BasePoolRights,
     exists (v : Z) (encoded : string),
       toEncodedBasePoolRights r = Ok encoded /\
       toBytes32 (BNNumber v) = Ok encoded /\
       String.length encoded = 66%nat /\
       Ethers.hex_value encoded = Some v /\
       0 <= v < 8 /\
       Z.testbit v 0 = flag (canTransferOwnership r) /\
       Z.testbit v 1 = flag (canChangeSwapFee r) /\
       Z.testbit v 2 = flag (canUpdateMetadata r)) /\
  toEncodedBasePoolRights
    {| canTransferOwnership := Some true; canChangeSwapFee := None;
       canUpdateMetadata := Some true |}
  = toBytes32 (BNNumber 5) /\
  toEncodedBasePoolRights
    {| canTransferOwnership := Some true; canChangeSwapFee := Some false;
       canUpdateMetadata := Some true |}
  = toBytes32 (BNNumber 5) /\
  toBytes32 (BNNumber 5)
  = Ok "0x0000000000000000000000000000000000000000000000000000000000000005".
Proof.
  split; [|repeat split].
  intros [[[|]|] [[|]|] [[|]|]];
    match goal with
    | |- context [toEncodedBasePoolRights ?r] =>
        let e := eval vm_compute in (toEncodedBasePoolRights r) in
        match e with
        | Ok ?s =>
            let v := eval vm_compute in (Ethers.hex_value s) in
            match v with
            | Some ?n => exists n, s
            end
        end
    end;
    repeat split; try reflexivity; try discriminate.
Qed.

(** ** Mints *)

Lemma toTokenMints1_unmatched (p : RawTokenTransfer) :
  sender_list_unmatched p ->
  toTokenMints1 p = Throw "Inconsistent mint sender length".
Proof.
  intros (senders & Hfrom & Hlen). unfold toTokenMints1.
  rewrite Hfrom. destruct (r_to p) as [to|recipients]; [reflexivity|].
  specialize (Hlen recipients eq_refl).
  destruct (Nat.eqb_spec (length recipients) (length senders)); [lia|reflexivity].
Qed.

Lemma toTokenMints1_matched (p : RawTokenTransfer) :
  ~ sender_list_unmatched p -> toTokenMints1 p = Ok (mint_records p).
Proof.
  intros Hok. unfold toTokenMints1, mint_records, sender_for, sender_list_unmatched in *.
  destruct (r_to p) as [to|recipients], (r_from p) as [[s|senders]|];
    simpl; try reflexivity.
  - exfalso. apply Hok. exists senders. split; [reflexivity|]. discriminate.
  - destruct (Nat.eqb_spec (length recipients) (length senders)) as [E|NE];
      [reflexivity|].
    exfalso. apply Hok. exists senders. split; [reflexivity|].
    intros ? [= <-]. exact NE.
Qed.

Lemma sender_list_unmatched_dec (p : RawTokenTransfer) :
  sender_list_unmatched p \/ ~ sender_list_unmatched p.
Proof.
  unfold sender_list_unmatched.
  destruct (r_from p) as [[s|senders]|].
  - right. intros (? & [=] & _).
  - destruct (r_to p) as [to|recipients].
    + left. exists senders. split; [reflexivity|]. discriminate.
    + destruct (Nat.eq_dec (length recipients) (length senders)) as [E|NE].
      * right. intros (? & [= <-] & Hlen). exact (Hlen _ eq_refl E).
      * left. exists senders. split; [reflexivity|]. intros ? [= <-]. exact NE.
  - right. intros (? & [=] & _).
Qed.

Lemma flatMap_toTokenMints1 (ps : list RawTokenTransfer) :
  (Exists sender_list_unmatched ps /\
   Js.flatMap toTokenMints1 ps = Throw "Inconsistent mint sender length") \/
  (~ Exists sender_list_unmatched ps /\
   Js.flatMap toTokenMints1 ps = Ok (ps ≫= mint_records)).
Proof.
  induction ps as [|p ps IH]; simpl.
  - right. split; [|reflexivity]. intros HE. inversion HE.
  - destruct (sender_list_unmatched_dec p) as [Hp|Hp].
    + left. split; [left; exact Hp|].
      rewrite (toTokenMints1_unmatched p Hp). reflexivity.
    + rewrite (toTokenMints1_matched p Hp). simpl.
      destruct IH as [[HE ->]|[HE ->]]; simpl.
      * left. split; [right; exact HE|reflexivity].
      * right. split; [|reflexivity].
        intros HE'. inversion HE'; subst; contradiction.
Qed.

Lemma toTokenMints_outcome (params : RawTokenMint) :
  (Exists sender_list_unmatched (elements params) /\
   toTokenMints params = Throw "Inconsistent mint sender length") \/
  (~ Exists sender_list_unmatched (elements params) /\
   toTokenMints params = Ok (elements params ≫= mint_records)).
Proof.
  destruct params as [p|ps]; simpl; [|apply flatMap_toTokenMints1].
  destruct (sender_list_unmatched_dec p) as [Hp|Hp].
  - left. split; [left; exact Hp|apply toTokenMints1_unmatched, Hp].
  - right. split.
    + intros HE. inversion HE as [? ? Hhd|? ? Htl]; subst;
        [contradiction|inversion Htl].
    + rewrite (toTokenMints1_matched p Hp), app_nil_r. reflexivity.
Qed.

(** C1, as amended: [toTokenMints] raises the inconsistency error exactly
    when, in the input or in one element of an input list, the sender field
    is a list and the recipient field is not a list of the same length (a
    single recipient, or a list of another length); in every other case it
    succeeds with one single-recipient, single-sender record per recipient,
    carrying the shared amount and the sender at the recipient's position or
    the one shared sender. *)
Theorem toTokenMints_error_iff (params : RawTokenMint) :
  ((exists msg, toTokenMints params = Throw msg) <->
   Exists sender_list_unmatched (elements params)) /\
  (Exists sender_list_unmatched (elements params) ->
   toTokenMints params = Throw "Inconsistent mint sender length") /\
  (~ Exists sender_list_unmatched (elements params) ->
   toTokenMints params = Ok (elements params ≫= mint_records)).
Proof.
  destruct (toTokenMints_outcome params) as [[HE Hr]|[HE Hr]]; rewrite Hr.
  - split; [split; [intros _; exact HE|intros _; eexists; reflexivity]|].
    split; [reflexivity|]. intros HN. contradiction.
  - split; [split; [intros [msg [=]]|intros HC; contradiction]|].
    split; [intros HC; contradiction|reflexivity].
Qed.

Example toTokenMints_shared_sender :
  toTokenMints (One {| r_to := Many [vault; router];
                       r_amount := Some (BNNumber 7);
                       r_from := Some (One lp) |})
  = Ok [ {| x_to := vault; x_amount := Some (BNNumber 7); x_from := Some lp |};
         {| x_to := router; x_amount := Some (BNNumber 7); x_from := Some lp |} ].
Proof. reflexivity. Qed.

Example toTokenMints_two_against_three :
  toTokenMints (One {| r_to := Many [vault; router];
                       r_amount := Some (BNNumber 7);
                       r_from := Some (Many [lp; trader; other]) |})
  = Throw "Inconsistent mint sender length".
Proof. reflexivity. Qed.

Example toTokenMints_paired :
  toTokenMints (Many [ {| r_to := Many [vault; router]; r_amount := None;
                          r_from := Some (Many [lp; trader]) |};
                       {| r_to := One vault; r_amount := Some (BNNumber 1);
                          r_from := None |} ])
  = Ok [ {| x_to := vault; x_amount := None; x_from := Some lp |};
         {| x_to := router; x_amount := None; x_from := Some trader |};
         {| x_to := vault; x_amount := Some (BNNumber 1); x_from := None |} ].
Proof. reflexivity. Qed.

(** C1, as stated, fails: a single recipient with a list of senders is not
    a pair of lists of unequal length, and [toTokenMints] still raises the
    inconsistency error. *)
Lemma toTokenMints_single_recipient_sender_list :
  ~ both_lists_unequal oneRecipientSenderList /\
  toTokenMints (One oneRecipientSenderList)
  = Throw "Inconsistent mint sender length".
Proof.
  split; [|reflexivity].
  intros (recipients & senders & Hto & _). discriminate Hto.
Qed.

Lemma toTokenMints_error_iff_witness :
  ~ Exists sender_list_unmatched (elements (One twoRecipientsTwoSenders)) /\
  toTokenMints (One twoRecipientsTwoSenders)
  = Ok [ {| x_to := vault; x_amount := Some (BNNumber 7); x_from := Some lp |};
         {| x_to := router; x_amount := Some (BNNumber 7); x_from := Some trader |} ].
Proof.
  assert (HN : ~ Exists sender_list_unmatched
                   (elements (One twoRecipientsTwoSenders))).
  { intros HE. inversion HE as [? ? Hhd|? ? Htl]; subst; [|inversion Htl].
    destruct Hhd as (senders & Hfrom & Hlen). simpl in Hfrom, Hlen.
    injection Hfrom as <-. exact (Hlen _ eq_refl eq_refl). }
  split; [exact HN|].
  exact (proj2 (proj2 (toTokenMints_error_iff _)) HN).
Defined.

(** ** Approvals *)

(** Every recipient paired with every sender, recipients outermost. *)
Lemma product_lookup {A B C} (f : A -> B -> C) (xs : list A) (ys : list B)
    (i j : nat) (x : A) (y : B) :
  xs !! i = Some x -> ys !! j = Some y ->
  (xs ≫= (fun a => f a <$> ys)) !! (i * length ys + j)%nat = Some (f x y).
Proof.
  revert i. induction xs as [|a xs IH]; intros i Hx Hy; [discriminate|].
  rewrite bind_cons. destruct i as [|i]; simpl in Hx.
  - injection Hx as ->. simpl.
    rewrite lookup_app_l by (rewrite length_fmap; eapply lookup_lt_Some, Hy).
    rewrite list_lookup_fmap, Hy. reflexivity.
  - rewrite lookup_app_r by (rewrite length_fmap; simpl; lia).
    rewrite length_fmap.
    replace (S i * length ys + j - length ys)%nat with (i * length ys + j)%nat
      by (simpl; lia).
    apply IH; assumption.
Qed.

Lemma product_length {A B C} (f : A -> B -> C) (xs : list A) (ys : list B) :
  length (xs ≫= (fun a => f a <$> ys)) = (length xs * length ys)%nat.
Proof.
  induction xs as [|a xs IH]; [reflexivity|].
  rewrite bind_cons, length_app, length_fmap, IH. simpl. reflexivity.
Qed.

(** C2, as amended: [toTokenApprovals] raises no error at all; whatever the
    lengths of the recipient and sender lists, it succeeds. *)
Theorem toTokenApprovals_never_throws (params : RawTokenApproval) :
  exists approvals : list TokenApproval,
    toTokenApprovals params = Ok approvals /\
    approvals = elements params ≫= toTokenApprovals1.
Proof.
  destruct params as [p|ps]; simpl.
  - exists (toTokenApprovals1 p). split; [reflexivity|].
    rewrite app_nil_r. reflexivity.
  - exists (ps ≫= toTokenApprovals1). split; [|reflexivity].
    apply flatMap_Ok.
Qed.

(** C2, as stated, fails: with two recipients and three senders, lists of
    unequal length, [toTokenApprovals] returns six approvals and raises
    nothing. *)
Lemma toTokenApprovals_two_against_three :
  both_lists_unequal twoRecipientsThreeSenders /\
  toTokenApprovals (One twoRecipientsThreeSenders)
  = Ok [ {| x_to := vault; x_amount := Some (BNNumber 7); x_from := Some lp |};
         {| x_to := vault; x_amount := Some (BNNumber 7); x_from := Some trader |};
         {| x_to := vault; x_amount := Some (BNNumber 7); x_from := Some other |};
         {| x_to := router; x_amount := Some (BNNumber 7); x_from := Some lp |};
         {| x_to := router; x_amount := Some (BNNumber 7); x_from := Some trader |};
         {| x_to := router; x_amount := Some (BNNumber 7); x_from := Some other |} ] /\
  forall msg, toTokenApprovals (One twoRecipientsThreeSenders) <> Throw msg.
Proof.
  split; [|split; [reflexivity|discriminate]].
  exists [vault; router], [lp; trader; other].
  repeat split. simpl. lia.
Qed.

(** C10: for an input that is not a list, with a list of [m] recipients and
    a list of [n] senders, [toTokenApprovals] succeeds with exactly [m * n]
    records: each recipient paired with each sender, recipients outermost,
    every record carrying the shared amount. *)
Theorem toTokenApprovals_product (p : RawTokenTransfer)
    (recipients : list Account) (senders : list SignerWithAddress) :
  r_to p = Many recipients ->
  r_from p = Some (Many senders) ->
  exists approvals : list TokenApproval,
    toTokenApprovals (One p) = Ok approvals /\
    length approvals = (length recipients * length senders)%nat /\
    forall (i j : nat) (to : Account) (from : SignerWithAddress),
      recipients !! i = Some to -> senders !! j = Some from ->
      approvals !! (i * length senders + j)%nat
      = Some {| x_to := to; x_amount := r_amount p; x_from := Some from |}.
Proof.
  intros Hto Hfrom. eexists. split; [reflexivity|].
  unfold toTokenApprovals1. rewrite Hto, Hfrom.
  split.
  - apply (product_length
             (fun to from => {| x_to := to; x_amount := r_amount p;
                                x_from := Some from |})).
  - intros i j to from Hi Hj.
    apply (product_lookup
             (fun to from => {| x_to := to; x_amount := r_amount p;
                                x_from := Some from |})); assumption.
Qed.

Lemma toTokenApprovals_product_witness :
  exists approvals : list TokenApproval,
    toTokenApprovals (One twoRecipientsThreeSenders) = Ok approvals /\
    length approvals = 6%nat /\
    approvals !! 5%nat
    = Some {| x_to := router; x_amount := Some (BNNumber 7); x_from := Some other |}.
Proof.
  destruct (toTokenApprovals_product twoRecipientsThreeSenders
              [vault; router] [lp; trader; other] eq_refl eq_refl)
    as (approvals & Hok & Hlen & Hat).
  exists approvals. split; [exact Hok|]. split; [exact Hlen|].
  exact (Hat 1%nat 2%nat router other eq_refl eq_refl).
Defined.

Example toTokenApprovals_single_spender :
  toTokenApprovals (One {| r_to := One vault; r_amount := None;
                           r_from := Some (Many [lp; trader]) |})
  = Ok [ {| x_to := vault; x_amount := None; x_from := Some lp |};
         {| x_to := vault; x_amount := None; x_from := Some trader |} ].
Proof. reflexivity. Qed.

(** ** Safeguard pool deployments *)

Lemma default_list_absent {A} (n : nat) (d : A) :
  default_list None n d = replicate n d /\
  length (default_list None n d) = n /\
  forall i : nat, (i < n)%nat -> default_list None n d !! i = Some d.
Proof.
  unfold default_list. split; [reflexivity|].
  split; [apply length_replicate|].
  intros i Hi. apply lookup_replicate_2, Hi.
Qed.

Section PoolProperties.
Context `{HelperConstants}.

(** The token count of a raw deployment: that of its token list, 0
    without one. *)
Lemma toSafeguardPoolDeployment_tokens (params : RawSafeguardPoolDeployment) :
  s_tokens (toSafeguardPoolDeployment params)
  = Js.nullish (rs_tokens params) newTokenList.
Proof. reflexivity. Qed.


End PoolProperties.

Example toSafeguardPoolDeployment_two_tokens :
  let d := @toSafeguardPoolDeployment referenceConstants twoTokenPool in
  TokenList_length (s_tokens d) = 2%nat /\
  s_assetManagers d
  = [ "0x0000000000000000000000000000000000000000";
      "0x0000000000000000000000000000000000000000" ] /\
  s_oracleParameters d
  = [ {| oracle := Some (AccountString "0x0000000000000000000000000000000000000000");
         maxTimeout := Some (BNNumber 86400);
         isStable := Some true; isFlexibleOracle := Some false |};
      {| oracle := Some (AccountString "0x0000000000000000000000000000000000000000");
         maxTimeout := Some (BNNumber 86400);
         isStable := Some true; isFlexibleOracle := Some false |} ] /\
  s_owner d = "0x0000000000000000000000000000000000000000".
Proof. repeat split. Qed.


(** ** Typed-data signatures *)

Section SignerProperties.
Context `{SafeguardKinds}.

(** C9: each of the three signing operations hands the signer the domain
    named "Pool Safeguard", version "1", with the caller's chain
    identifier and verifying contract, the operation's schema and a value
    built from the caller's arguments, whose kind is the fixed join (exit)
    kind for a join (exit); whatever the signer answers, a signature or a
    rejection, is the outcome. *)
Theorem sign_requests (chainId : Z) (contractAddress : string)
    (kind : SafeguardPoolSwapKind) (poolId tokenIn tokenOut : string)
    (amount : BigNumberish) (recipient : string) (deadline : BigNumberish)
    (data : string) (signer : SignerWithAddress) :
  let domain :=
    {| name := "Pool Safeguard"; version := "1";
       chainId := chainId; verifyingContract := contractAddress |} in
  signSwapData chainId contractAddress kind poolId tokenIn tokenOut amount
    recipient deadline data signer
  = _signTypedData signer domain SwapStructTypes
      (SwapValue {| swap_kind := kind; swap_poolId := poolId;
                    swap_tokenIn := tokenIn; swap_tokenOut := tokenOut;
                    swap_amount := amount; swap_recipient := recipient;
                    swap_deadline := deadline; swap_swapData := data |}) /\
  signJoinExactTokensData chainId contractAddress poolId recipient deadline
    data signer
  = _signTypedData signer domain JoinExactTokensStructTypes
      (JoinValue {| join_kind := EXACT_TOKENS_IN_FOR_BPT_OUT;
                    join_poolId := poolId; join_recipient := recipient;
                    join_deadline := deadline; join_joinData := data |}) /\
  signExitExactTokensData chainId contractAddress poolId recipient deadline
    data signer
  = _signTypedData signer domain ExitExactTokensStructTypes
      (ExitValue {| exit_kind := BPT_IN_FOR_EXACT_TOKENS_OUT;
                    exit_poolId := poolId; exit_recipient := recipient;
                    exit_deadline := deadline; exit_exitData := data |}).
Proof.
  intros domain.
  unfold signSwapData, signJoinExactTokensData, signExitExactTokensData.
  unfold mbind, result_bind, mret, result_ret.
  repeat split; apply bind_Ok_r.
Qed.

End SignerProperties.

Example signJoin_with_stub :
  @signJoinExactTokensData referenceKinds 5 "0xPool" "0x01" "0xLP"
    (BNNumber 1700000000) "0x" (stubSigner "0xSigner")
  = Ok "Pool Safeguard/1/5/0xPool/2".
Proof. reflexivity. Qed.

Example signExit_with_stub :
  @signExitExactTokensData referenceKinds 5 "0xPool" "0x01" "0xLP"
    (BNNumber 1700000000) "0x" (stubSigner "0xSigner")
  = Ok "Pool Safeguard/1/5/0xPool/1".
Proof. reflexivity. Qed.

Example signSwap_with_stub :
  signSwapData 1 "0xPool" 0 "0x01" "0xIn" "0xOut" (BNNumber 10) "0xLP"
    (BNNumber 1700000000) "0x" (stubSigner "0xSigner")
  = Ok "Pool Safeguard/1/1/0xPool/0".
Proof. reflexivity. Qed.

Example signSwap_rejected :
  signSwapData 1 "0xPool" 0 "0x01" "0xIn" "0xOut" (BNNumber 10) "0xLP"
    (BNNumber 1700000000) "0x" (rejectingSigner "0xSigner")
  = Throw "user rejected signing".
Proof. reflexivity. Qed.

(** ** Hexadecimal encoding *)

Lemma chars_length (s : string) :
  length (list_ascii_of_string s) = String.length s.
Proof. induction s as [|c s IH]; simpl; [reflexivity|]. rewrite IH. reflexivity. Qed.

Lemma fold_hex_step (l : list ascii) (acc : Z) :
  fold_left hex_step l acc
  = acc * 16 ^ Z.of_nat (length l) + fold_left hex_step l 0.
Proof.
  revert acc. induction l as [|c l IH]; intros acc; simpl; [lia|].
  rewrite (IH (hex_step acc c)), (IH (hex_step 0 c)).
  rewrite Nat2Z.inj_succ, Z.pow_succ_r by lia.
  unfold hex_step. lia.
Qed.

Lemma digits_value_app (l1 l2 : list ascii) :
  digits_value (l1 ++ l2)
  = digits_value l1 * 16 ^ Z.of_nat (length l2) + digits_value l2.
Proof.
  unfold digits_value. rewrite fold_left_app. apply fold_hex_step.
Qed.

Lemma digits_value_cons (c : ascii) (l : list ascii) :
  digits_value (c :: l)
  = Ethers.digit_value c * 16 ^ Z.of_nat (length l) + digits_value l.
Proof.
  change (c :: l) with ([c] ++ l). rewrite digits_value_app.
  unfold digits_value at 1. simpl. unfold hex_step. lia.
Qed.

Lemma hex_char_digit (d : Z) :
  0 <= d < 16 ->
  Ethers.digit_value (Ethers.hex_char d) = d /\
  Ethers.is_hex_digit (Ethers.hex_char d) = true.
Proof.
  intros Hd.
  assert (Hcases : d = 0 \/ d = 1 \/ d = 2 \/ d = 3 \/ d = 4 \/ d = 5 \/ d = 6 \/
                   d = 7 \/ d = 8 \/ d = 9 \/ d = 10 \/ d = 11 \/ d = 12 \/
                   d = 13 \/ d = 14 \/ d = 15) by lia.
  repeat (destruct Hcases as [->|Hcases]; [split; reflexivity|]).
  subst d. split; reflexivity.
Qed.

Lemma hex_loop_value (fuel : nat) (value : Z) (hex : string) :
  0 <= value < 2 ^ Z.of_nat fuel ->
  digits_value (list_ascii_of_string (Ethers.hex_loop fuel value hex))
  = value * 16 ^ Z.of_nat (String.length hex)
    + digits_value (list_ascii_of_string hex).
Proof.
  revert value hex. induction fuel as [|fuel IH]; intros value hex Hv.
  - simpl in *. assert (value = 0) as -> by lia. lia.
  - cbn [Ethers.hex_loop]. destruct (Z.eqb_spec value 0) as [->|Hnz]; [lia|].
    rewrite IH.
    + cbn [list_ascii_of_string String.length]. rewrite digits_value_cons.
      change 15 with (Z.ones 4). rewrite Z.land_ones by lia.
      change (2 ^ 4) with 16.
      destruct (hex_char_digit (value mod 16)) as [-> _];
        [apply Z.mod_pos_bound; lia|].
      rewrite Nat2Z.inj_succ, Z.pow_succ_r by lia.
      rewrite chars_length.
      pose proof (Z.div_mod value 16). lia.
    + rewrite Nat2Z.inj_succ, Z.pow_succ_r in Hv by lia.
      split; [apply Z.div_pos; lia|].
      apply Z.div_lt_upper_bound; lia.
Qed.

Lemma hex_loop_hex_digits (fuel : nat) (value : Z) (hex : string) :
  0 <= value ->
  forallb Ethers.is_hex_digit (list_ascii_of_string hex) = true ->
  forallb Ethers.is_hex_digit
    (list_ascii_of_string (Ethers.hex_loop fuel value hex)) = true.
Proof.
  revert value hex. induction fuel as [|fuel IH]; intros value hex Hv Hhex;
    [exact Hhex|].
  cbn [Ethers.hex_loop]. destruct (Z.eqb_spec value 0) as [->|Hnz]; [exact Hhex|].
  apply IH; [apply Z.div_pos; lia|].
  cbn [list_ascii_of_string forallb]. rewrite Hhex, andb_true_r.
  change 15 with (Z.ones 4). rewrite Z.land_ones by lia.
  apply hex_char_digit, Z.mod_pos_bound. lia.
Qed.

Lemma hex_loop_length_ge (fuel : nat) (value : Z) (hex : string) :
  (String.length hex <= String.length (Ethers.hex_loop fuel value hex))%nat.
Proof.
  revert value hex. induction fuel as [|fuel IH]; intros value hex; [simpl; lia|].
  cbn [Ethers.hex_loop]. destruct (value =? 0); [lia|].
  etransitivity; [|apply IH]. simpl. lia.
Qed.

Lemma hex_loop_length_le (fuel k : nat) (value : Z) (hex : string) :
  0 <= value < 16 ^ Z.of_nat k ->
  (String.length (Ethers.hex_loop fuel value hex) <= k + String.length hex)%nat.
Proof.
  revert k value hex. induction fuel as [|fuel IH]; intros k value hex Hv;
    [simpl; lia|].
  cbn [Ethers.hex_loop]. destruct (Z.eqb_spec value 0) as [->|Hnz]; [lia|].
  destruct k as [|k]; [simpl in Hv; lia|].
  rewrite Nat2Z.inj_succ, Z.pow_succ_r in Hv by lia.
  etransitivity; [apply (IH k)|simpl; lia].
  split; [apply Z.div_pos; lia|apply Z.div_lt_upper_bound; lia].
Qed.

Lemma hex_loop_length_gt (fuel k : nat) (value : Z) (hex : string) :
  0 <= value < 2 ^ Z.of_nat fuel ->
  16 ^ Z.of_nat k <= value ->
  (k + 1 + String.length hex <= String.length (Ethers.hex_loop fuel value hex))%nat.
Proof.
  revert k value hex. induction fuel as [|fuel IH]; intros k value hex Hv Hk.
  - simpl in Hv. pose proof (Z.pow_pos_nonneg 16 (Z.of_nat k)). lia.
  - cbn [Ethers.hex_loop].
    assert (0 < 16 ^ Z.of_nat k) by (apply Z.pow_pos_nonneg; lia).
    destruct (Z.eqb_spec value 0) as [->|Hnz]; [lia|].
    rewrite Nat2Z.inj_succ, Z.pow_succ_r in Hv by lia.
    assert (Hdiv : 0 <= value / 16 < 2 ^ Z.of_nat fuel).
    { split; [apply Z.div_pos; lia|apply Z.div_lt_upper_bound; lia]. }
    destruct k as [|k].
    + etransitivity; [|apply hex_loop_length_ge]. simpl. lia.
    + rewrite Nat2Z.inj_succ, Z.pow_succ_r in Hk by lia.
      etransitivity; [|apply (IH k); [exact Hdiv|]].
      * simpl. lia.
      * apply Z.div_le_lower_bound; lia.
Qed.

Lemma hex_digits_fuel (value : Z) :
  0 <= value -> 0 <= value < 2 ^ Z.of_nat (S (Z.to_nat (Z.log2 value))).
Proof.
  intros Hv. split; [exact Hv|].
  rewrite Nat2Z.inj_succ, Z2Nat.id by apply Z.log2_nonneg.
  destruct (Z.eq_dec value 0) as [->|Hnz]; [reflexivity|].
  apply Z.log2_spec. lia.
Qed.

(** The even-length digits [hexlify] prints for a non-negative integer:
    hexadecimal, denoting the integer, and as many as its size asks for. *)
Lemma even_hex_spec (value : Z) :
  0 <= value ->
  forallb Ethers.is_hex_digit (list_ascii_of_string (Ethers.even_hex value)) = true /\
  digits_value (list_ascii_of_string (Ethers.even_hex value)) = value /\
  (forall j : nat, value < 16 ^ Z.of_nat (2 * S j) ->
     (String.length (Ethers.even_hex value) <= 2 * S j)%nat) /\
  (forall j : nat, 16 ^ Z.of_nat (2 * j) <= value ->
     (2 * j < String.length (Ethers.even_hex value))%nat).
Proof.
  intros Hv. pose proof (hex_digits_fuel value Hv) as Hfuel.
  pose proof (hex_loop_value _ value "" Hfuel) as Hval.
  pose proof (hex_loop_hex_digits (S (Z.to_nat (Z.log2 value))) value "" Hv eq_refl)
    as Hdig.
  change (Ethers.hex_loop _ value "") with (Ethers.hex_digits value) in Hval, Hdig.
  cbn [String.length list_ascii_of_string] in Hval.
  change (digits_value []) with 0 in Hval.
  change (16 ^ Z.of_nat 0) with 1 in Hval.
  rewrite Z.mul_1_r, Z.add_0_r in Hval.
  assert (Hle : forall k : nat, value < 16 ^ Z.of_nat k ->
                  (String.length (Ethers.hex_digits value) <= k)%nat).
  { intros k Hk.
    pose proof (hex_loop_length_le (S (Z.to_nat (Z.log2 value))) k value ""
                  (conj Hv Hk)) as Hl.
    cbn [String.length] in Hl. unfold Ethers.hex_digits. lia. }
  assert (Hgt : forall k : nat, 16 ^ Z.of_nat k <= value ->
                  (k < String.length (Ethers.hex_digits value))%nat).
  { intros k Hk.
    pose proof (hex_loop_length_gt _ k value "" Hfuel Hk) as Hl.
    cbn [String.length] in Hl. unfold Ethers.hex_digits. lia. }
  unfold Ethers.even_hex.
  destruct (Nat.eqb_spec (String.length (Ethers.hex_digits value)) 0) as [E0|N0].
  - assert (value = 0) as ->.
    { destruct (Z.eq_dec value 0) as [E|NE]; [exact E|].
      specialize (Hgt 0%nat). simpl in Hgt. lia. }
    repeat split; try reflexivity.
    + intros j _. simpl. lia.
    + intros j Hj. pose proof (Z.pow_pos_nonneg 16 (Z.of_nat (2 * j))). lia.
  - destruct (Nat.even (String.length (Ethers.hex_digits value))) eqn:Heven.
    + repeat split; [exact Hdig|exact Hval|intros j Hj; apply Hle, Hj|].
      intros j Hj. apply Hgt, Hj.
    + split; [cbn [list_ascii_of_string forallb]; rewrite Hdig; reflexivity|].
      split.
      { cbn [list_ascii_of_string]. rewrite digits_value_cons.
        change (Ethers.digit_value "0") with 0. lia. }
      assert (Hodd : Nat.odd (String.length (Ethers.hex_digits value)) = true).
      { rewrite <- Nat.negb_even, Heven. reflexivity. }
      apply Nat.odd_spec in Hodd. destruct Hodd as [m Hm].
      split.
      * intros j Hj. specialize (Hle _ Hj). simpl String.length. lia.
      * intros j Hj. specialize (Hgt _ Hj). simpl String.length. lia.
Qed.

Lemma even_hex_even (value : Z) :
  Nat.even (String.length (Ethers.even_hex value)) = true.
Proof.
  unfold Ethers.even_hex.
  destruct (Nat.eqb_spec (String.length (Ethers.hex_digits value)) 0); [reflexivity|].
  destruct (Nat.even (String.length (Ethers.hex_digits value))) eqn:Heven;
    [exact Heven|].
  simpl String.length. rewrite Nat.even_succ, <- Nat.negb_even, Heven. reflexivity.
Qed.

Lemma substring_all (s : string) : String.substring 0 (String.length s) s = s.
Proof. induction s as [|c s IH]; simpl; [reflexivity|]. rewrite IH. reflexivity. Qed.

Lemma chars_append (a b : string) :
  list_ascii_of_string (a +:+ b) = list_ascii_of_string a ++ list_ascii_of_string b.
Proof. induction a as [|c a IH]; simpl; [reflexivity|]. rewrite IH. reflexivity. Qed.

Lemma digits_value_zeros (k : nat) (l : list ascii) :
  digits_value (replicate k "0"%char ++ l) = digits_value l.
Proof.
  induction k as [|k IH]; [reflexivity|].
  cbn [replicate app]. rewrite digits_value_cons, IH.
  change (Ethers.digit_value "0") with 0. lia.
Qed.

Lemma pad_digits_spec (digits : string) (width : nat) :
  (String.length digits <= width)%nat ->
  forallb Ethers.is_hex_digit (list_ascii_of_string digits) = true ->
  String.length (Ethers.pad_digits digits width) = width /\
  forallb Ethers.is_hex_digit
    (list_ascii_of_string (Ethers.pad_digits digits width)) = true /\
  digits_value (list_ascii_of_string (Ethers.pad_digits digits width))
  = digits_value (list_ascii_of_string digits).
Proof.
  intros Hlen Hhex. unfold Ethers.pad_digits.
  rewrite <- chars_length in Hlen.
  rewrite <- !chars_length, !chars_append, !list_ascii_of_string_of_list_ascii.
  rewrite length_app, length_replicate, forallb_app, Hhex, andb_true_r.
  rewrite digits_value_zeros.
  split; [lia|]. split; [|reflexivity].
  apply forallb_forall. intros c Hc. apply list_elem_of_In in Hc.
  apply elem_of_replicate in Hc as [-> _]. reflexivity.
Qed.

Lemma hexZeroPad_digits (digits : string) (len : nat) :
  forallb Ethers.is_hex_digit (list_ascii_of_string digits) = true ->
  Ethers.hexZeroPad ("0x" +:+ digits) len
  = if (2 * len <? String.length digits)%nat
    then Throw "value out of range"
    else Ok ("0x" +:+ Ethers.pad_digits digits (2 * len)).
Proof.
  intros Hhex. unfold Ethers.hexZeroPad.
  change ("0x" +:+ digits) with (String "0" (String "x" digits)).
  cbn [Ethers.isHexString]. rewrite Hhex.
  cbn [String.length].
  replace (S (S (String.length digits)) - 2)%nat with (String.length digits) by lia.
  cbn [String.substring]. rewrite substring_all.
  destruct (Nat.ltb_spec (2 * len + 2) (S (S (String.length digits))));
    destruct (Nat.ltb_spec (2 * len) (String.length digits)); try lia; reflexivity.
Qed.

Lemma hex_value_prefixed (digits : string) :
  forallb Ethers.is_hex_digit (list_ascii_of_string digits) = true ->
  Ethers.hex_value ("0x" +:+ digits)
  = Some (digits_value (list_ascii_of_string digits)).
Proof.
  intros Hhex. unfold Ethers.hex_value.
  change ("0x" +:+ digits) with (String "0" (String "x" digits)).
  cbn [Ethers.isHexString]. rewrite Hhex.
  cbn [String.length].
  replace (S (S (String.length digits)) - 2)%nat with (String.length digits) by lia.
  cbn [String.substring]. rewrite substring_all. reflexivity.
Qed.

(** Padding the hexadecimal text of a non-negative integer to 32 bytes:
    the integers below 2^256 fit and read back as themselves, the others
    are out of range. *)
Lemma pad32_even_hex (value : Z) :
  0 <= value ->
  (value < 2 ^ 256 ->
   exists encoded : string,
     Ethers.hexZeroPad ("0x" +:+ Ethers.even_hex value) 32 = Ok encoded /\
     String.length encoded = 66%nat /\
     Ethers.hex_value encoded = Some value) /\
  (2 ^ 256 <= value ->
   Ethers.hexZeroPad ("0x" +:+ Ethers.even_hex value) 32
   = Throw "value out of range").
Proof.
  intros Hv. destruct (even_hex_spec value Hv) as (Hhex & Hval & Hle & Hgt).
  rewrite (hexZeroPad_digits _ 32 Hhex).
  split.
  - intros Hsmall. specialize (Hle 31%nat Hsmall).
    destruct (Nat.ltb_spec (2 * 32) (String.length (Ethers.even_hex value)));
      [lia|].
    destruct (pad_digits_spec (Ethers.even_hex value) (2 * 32)) as (Hl & Hh & Hd);
      [lia|exact Hhex|].
    eexists. split; [reflexivity|]. split.
    + change ("0x" +:+ ?d) with (String "0" (String "x" d)).
      cbn [String.length]. rewrite Hl. reflexivity.
    + rewrite (hex_value_prefixed _ Hh), Hd, Hval. reflexivity.
  - intros Hbig. specialize (Hgt 32%nat Hbig).
    destruct (Nat.ltb_spec (2 * 32) (String.length (Ethers.even_hex value)));
      [reflexivity|lia].
Qed.

Lemma encode_safe_number (n : Z) :
  0 <= n < 9007199254740991 ->
  exists encoded : string,
    toBytes32 (BNNumber n) = Ok encoded /\ Ethers.hex_value encoded = Some n.
Proof.
  intros Hn. unfold toBytes32, Ethers.hexlify.
  destruct (Z.ltb_spec n 0); [lia|].
  destruct (Z.leb_spec 9007199254740991 n); [lia|].
  cbn [orb mbind result_bind Js.bind].
  destruct (pad32_even_hex n) as [Hfit _]; [lia|].
  destruct Hfit as (encoded & Hpad & _ & Hval); [lia|].
  exists encoded. split; assumption.
Qed.

(** X1: [toBytes32] of a safe non-negative integer given as a number
    succeeds with a string of 66 characters that reads back as the integer;
    the [BigNumber] of the same value encodes to the same string. *)
Theorem toBytes32_number_roundtrip (n : Z) :
  0 <= n < 9007199254740991 ->
  exists encoded : string,
    toBytes32 (BNNumber n) = Ok encoded /\
    toBytes32 (BNBig n) = Ok encoded /\
    String.length encoded = 66%nat /\
    Ethers.hex_value encoded = Some n.
Proof.
  intros Hn. unfold toBytes32, Ethers.hexlify.
  destruct (Z.ltb_spec n 0); [lia|].
  destruct (Z.leb_spec 9007199254740991 n); [lia|].
  cbn [orb mbind result_bind Js.bind].
  destruct (pad32_even_hex n) as [Hfit _]; [lia|].
  destruct Hfit as (encoded & Hpad & Hlen & Hval); [lia|].
  exists encoded. repeat split; assumption.
Qed.

Lemma toBytes32_number_roundtrip_witness :
  0 <= 1000 < 9007199254740991 /\
  exists encoded : string,
    toBytes32 (BNNumber 1000) = Ok encoded /\
    toBytes32 (BNBig 1000) = Ok encoded /\
    String.length encoded = 66%nat /\
    Ethers.hex_value encoded = Some 1000.
Proof.
  split; [lia|]. apply (toBytes32_number_roundtrip 1000). lia.
Defined.

(** X2: [toBytes32] of a [BigNumber] from 0 up to 2^256 - 1 succeeds with a
    string of 66 characters that reads back as the value. *)
Theorem toBytes32_uint256_roundtrip (v : Z) :
  0 <= v < 2 ^ 256 ->
  exists encoded : string,
    toBytes32 (BNBig v) = Ok encoded /\
    String.length encoded = 66%nat /\
    Ethers.hex_value encoded = Some v.
Proof.
  intros Hv. unfold toBytes32, Ethers.hexlify.
  destruct (Z.ltb_spec v 0); [lia|].
  cbn [mbind result_bind Js.bind].
  destruct (pad32_even_hex v) as [Hfit _]; [lia|].
  apply Hfit. lia.
Qed.

Lemma toBytes32_uint256_roundtrip_witness :
  0 <= 2 ^ 256 - 1 < 2 ^ 256 /\
  exists encoded : string,
    toBytes32 (BNBig (2 ^ 256 - 1)) = Ok encoded /\
    String.length encoded = 66%nat /\
    Ethers.hex_value encoded = Some (2 ^ 256 - 1).
Proof.
  split; [lia|]. apply (toBytes32_uint256_roundtrip (2 ^ 256 - 1)). lia.
Defined.

(** X3: [toBytes32] throws on what does not fit 32 bytes: a number that is
    negative or not a safe integer is no valid value to print, a
    [BigNumber] of 2^256 or more is out of range, and a negative
    [BigNumber] prints as a string that is no hex string. *)
Theorem toBytes32_rejects (x : Z) :
  (x < 0 \/ 9007199254740991 <= x ->
   toBytes32 (BNNumber x) = Throw "invalid hexlify value") /\
  (2 ^ 256 <= x -> toBytes32 (BNBig x) = Throw "value out of range") /\
  (x < 0 -> toBytes32 (BNBig x) = Throw "invalid hex string").
Proof.
  unfold toBytes32, Ethers.hexlify. repeat split.
  - intros Hx.
    destruct (Z.ltb_spec x 0); [reflexivity|].
    destruct (Z.leb_spec 9007199254740991 x); [reflexivity|lia].
  - intros Hx. destruct (Z.ltb_spec x 0); [lia|].
    cbn [mbind result_bind Js.bind].
    destruct (pad32_even_hex x) as [_ Hbig]; [lia|]. apply Hbig, Hx.
  - intros Hx. destruct (Z.ltb_spec x 0); [reflexivity|lia].
Qed.

Lemma toBytes32_rejects_witness :
  toBytes32 (BNNumber (-1)) = Throw "invalid hexlify value" /\
  toBytes32 (BNBig (2 ^ 256)) = Throw "value out of range" /\
  toBytes32 (BNBig (-1)) = Throw "invalid hex string".
Proof.
  split; [apply (proj1 (toBytes32_rejects (-1))); lia|].
  split; [apply (proj1 (proj2 (toBytes32_rejects (2 ^ 256)))); lia|].
  apply (proj2 (proj2 (toBytes32_rejects (-1)))). lia.
Defined.

Lemma toEncodedBasePoolRights_value (r : BasePoolRights) :
  toEncodedBasePoolRights r
  = toBytes32
      (BNNumber (Z.b2z (flag (canTransferOwnership r))
                 + 2 * Z.b2z (flag (canChangeSwapFee r))
                 + 4 * Z.b2z (flag (canUpdateMetadata r)))).
Proof.
  unfold toEncodedBasePoolRights. do 2 f_equal.
  destruct r as [[[|]|] [[|]|] [[|]|]]; reflexivity.
Qed.

(** X4: two sets of pool rights have the same encoding exactly when their
    three flags agree, so the rights can be read back from the encoding. *)
Theorem toEncodedBasePoolRights_injective (r1 r2 : BasePoolRights) :
  toEncodedBasePoolRights r1 = toEncodedBasePoolRights r2 <-> flags r1 = flags r2.
Proof.
  rewrite !toEncodedBasePoolRights_value. unfold flags. split.
  - intros Heq.
    set (v1 := _ + _ + _) in Heq at 1. set (v2 := _ + _ + _) in Heq.
    destruct (encode_safe_number v1) as (e1 & H1 & Hv1).
    { subst v1. destruct (flag (canTransferOwnership r1)),
        (flag (canChangeSwapFee r1)), (flag (canUpdateMetadata r1)); simpl; lia. }
    destruct (encode_safe_number v2) as (e2 & H2 & Hv2).
    { subst v2. destruct (flag (canTransferOwnership r2)),
        (flag (canChangeSwapFee r2)), (flag (canUpdateMetadata r2)); simpl; lia. }
    rewrite H1, H2 in Heq. injection Heq as ->.
    rewrite Hv1 in Hv2. injection Hv2 as Hv. subst v1 v2.
    destruct (flag (canTransferOwnership r1)), (flag (canChangeSwapFee r1)),
      (flag (canUpdateMetadata r1)), (flag (canTransferOwnership r2)),
      (flag (canChangeSwapFee r2)), (flag (canUpdateMetadata r2));
      simpl in Hv; try reflexivity; lia.
  - intros [= -> -> ->]. reflexivity.
Qed.

(** ** Further properties of token deployments *)

(** X5: for an index that is not negative the decimals are between 0 and
    18 and repeat with period 19; for a negative index the truncating
    remainder gives a value between -18 and 0. *)
Theorem computeDecimalsFromIndex_range (i : Z) :
  (0 <= i ->
   0 <= computeDecimalsFromIndex i <= 18 /\
   computeDecimalsFromIndex (i + 19) = computeDecimalsFromIndex i) /\
  (i < 0 -> -18 <= computeDecimalsFromIndex i <= 0).
Proof.
  unfold computeDecimalsFromIndex. split.
  - intros Hi. rewrite !Z.rem_mod_nonneg by lia.
    pose proof (Z.mod_pos_bound i 19). split; [lia|].
    replace (i + 19) with (i + 1 * 19) by lia. apply Z.mod_add. lia.
  - intros Hi. replace i with (- (- i)) by lia.
    rewrite Z.rem_opp_l by lia. rewrite Z.rem_mod_nonneg by lia.
    pose proof (Z.mod_pos_bound (- i) 19). lia.
Qed.

Lemma computeDecimalsFromIndex_range_witness :
  (0 <= computeDecimalsFromIndex 40 <= 18 /\
   computeDecimalsFromIndex (40 + 19) = computeDecimalsFromIndex 40) /\
  -18 <= computeDecimalsFromIndex (-20) <= 0.
Proof.
  split.
  - apply (proj1 (computeDecimalsFromIndex_range 40)). lia.
  - apply (proj2 (computeDecimalsFromIndex_range (-20))). lia.
Defined.

(** X6: every deployment made from a bare count has between 0 and 18
    decimals, whether decimals vary or not. *)
Theorem count_deployments_decimals (n : Z) from (varyDecimals : bool)
    (deployments : list TokenDeployment) (d : TokenDeployment) :
  toTokenDeployments (RawCount n) from varyDecimals = Ok deployments ->
  d ∈ deployments ->
  0 <= t_decimals d <= 18.
Proof.
  intros Hok Hd.
  destruct (count_entries n from varyDecimals (count_success _ _ _ _ Hok))
    as (deployments' & Hok' & Hlen & Hat).
  rewrite Hok in Hok'. injection Hok' as <-.
  apply list_elem_of_lookup in Hd as [i Hi].
  assert (Hlt : (i < Z.to_nat n)%nat).
  { apply lookup_lt_Some in Hi. rewrite Hlen in Hi. exact Hi. }
  rewrite (Hat i Hlt) in Hi. injection Hi as <-. simpl.
  pose proof (Nat.mod_upper_bound i 19). destruct varyDecimals; lia.
Qed.

Lemma count_deployments_decimals_witness :
  exists deployments : list TokenDeployment,
    toTokenDeployments (RawCount 40) None true = Ok deployments /\
    {| t_from := None; t_name := "Token 37"; t_symbol := "TK37"; t_decimals := 18 |}
      ∈ deployments /\
    0 <= 18 <= 18.
Proof.
  eexists. split; [reflexivity|].
  match goal with
  | |- ?d ∈ ?l /\ _ =>
      assert (Hin : d ∈ l)
        by (apply list_elem_of_lookup; exists 37%nat; reflexivity)
  end.
  split; [exact Hin|].
  exact (count_deployments_decimals 40 None true _ _ eq_refl Hin).
Defined.

Lemma index_to_string_inj (i j : nat) :
  Js.index_to_string i = Js.index_to_string j -> i = j.
Proof.
  unfold Js.index_to_string. intros Heq.
  assert (Hnn : forall n, Nat.to_uint n <> Decimal.Nil).
  { intros n. rewrite <- (DecimalNat.Unsigned.of_to n) at 1.
    rewrite DecimalNat.Unsigned.to_of. apply DecimalFacts.unorm_nonnil. }
  apply (f_equal NilZero.uint_of_string) in Heq.
  rewrite !NilZero.usu in Heq by apply Hnn.
  injection Heq as Heq. apply DecimalNat.Unsigned.to_uint_inj, Heq.
Qed.

(** X7: the symbols of the deployments made from a bare count are pairwise
    distinct, and so are their names. *)
Theorem count_deployments_distinct (n : Z) from (varyDecimals : bool)
    (deployments : list TokenDeployment) :
  toTokenDeployments (RawCount n) from varyDecimals = Ok deployments ->
  NoDup (t_symbol <$> deployments) /\ NoDup (t_name <$> deployments).
Proof.
  intros Hok.
  destruct (count_entries n from varyDecimals (count_success _ _ _ _ Hok))
    as (deployments' & Hok' & Hlen & Hat).
  rewrite Hok in Hok'. injection Hok' as <-.
  assert (Hentry : forall i d,
            deployments !! i = Some d ->
            t_symbol d = "TK" +:+ Js.index_to_string i /\
            t_name d = "Token " +:+ Js.index_to_string i).
  { intros i d Hi.
    assert (Hlt : (i < Z.to_nat n)%nat).
    { apply lookup_lt_Some in Hi. rewrite Hlen in Hi. exact Hi. }
    rewrite (Hat i Hlt) in Hi. injection Hi as <-. split; reflexivity. }
  split; apply NoDup_alt; intros i j x Hi Hj;
    rewrite list_lookup_fmap in Hi, Hj;
    destruct (deployments !! i) as [di|] eqn:Edi; [|discriminate| |discriminate];
    destruct (deployments !! j) as [dj|] eqn:Edj; try discriminate;
    simpl in Hi, Hj; injection Hi as <-; injection Hj as Hj;
    destruct (Hentry i di Edi) as [Hsi Hni];
    destruct (Hentry j dj Edj) as [Hsj Hnj].
  - rewrite Hsi, Hsj in Hj. simpl in Hj. injection Hj as Hj.
    symmetry. apply index_to_string_inj, Hj.
  - rewrite Hni, Hnj in Hj. simpl in Hj. injection Hj as Hj.
    symmetry. apply index_to_string_inj, Hj.
Qed.

Lemma count_deployments_distinct_witness :
  toTokenDeployments (RawCount 3) None false
  = Ok [ {| t_from := None; t_name := "Token 0"; t_symbol := "TK0"; t_decimals := 18 |};
         {| t_from := None; t_name := "Token 1"; t_symbol := "TK1"; t_decimals := 18 |};
         {| t_from := None; t_name := "Token 2"; t_symbol := "TK2"; t_decimals := 18 |} ] /\
  NoDup ["TK0"; "TK1"; "TK2"] /\ NoDup ["Token 0"; "Token 1"; "Token 2"].
Proof.
  split; [reflexivity|].
  exact (count_deployments_distinct 3 None false _ eq_refl).
Defined.

(** X8: a list of symbols becomes one deployment per symbol, in order, each
    with its symbol, the name "Token " followed by its position, the shared
    deployer and the default decimals. *)
Theorem toTokenDeployments_symbols_list (symbols : list string) from
    (varyDecimals : bool) :
  exists deployments : list TokenDeployment,
    toTokenDeployments (RawList (RawSymbol <$> symbols)) from varyDecimals
    = Ok deployments /\
    deployments
    = imap (fun i s =>
              {| t_from := from;
                 t_name := "Token " +:+ Js.index_to_string i;
                 t_symbol := s;
                 t_decimals := if varyDecimals then Z.of_nat (i mod 19) else 18 |})
           symbols /\
    t_symbol <$> deployments = symbols.
Proof.
  eexists. split; [reflexivity|].
  match goal with |- ?l = ?r /\ _ => assert (Heq : l = r) end.
  { rewrite imap_fmap. apply imap_ext.
    intros i s _. simpl. unfold toTokenDeployment. simpl.
    rewrite computeDecimalsFromIndex_index.
    destruct from, varyDecimals; reflexivity. }
  split; [exact Heq|]. rewrite Heq.
  apply list_eq. intros i.
  rewrite list_lookup_fmap, list_lookup_imap.
  destruct (symbols !! i); reflexivity.
Qed.

(** X9: a list of raw deployments gives as many deployments, and an object
    that gives all four properties is taken as it is, whatever its position,
    the shared deployer and the decimals flag. *)
Theorem toTokenDeployments_explicit (l : list RawTokenDeployment) (i : nat)
    (name symbol : string) (decimals : Z) (deployer : SignerWithAddress)
    from (varyDecimals : bool) :
  l !! i = Some (RawObject (fullTokenObject name symbol decimals deployer)) ->
  exists deployments : list TokenDeployment,
    toTokenDeployments (RawList l) from varyDecimals = Ok deployments /\
    length deployments = length l /\
    deployments !! i
    = Some {| t_from := Some deployer; t_name := name; t_symbol := symbol;
              t_decimals := decimals |}.
Proof.
  intros Hi. eexists. split; [reflexivity|]. split; [apply length_imap|].
  rewrite list_lookup_imap, Hi. reflexivity.
Qed.

Lemma toTokenDeployments_explicit_witness :
  exists deployments : list TokenDeployment,
    toTokenDeployments
      (RawList [RawSymbol "DAI"; RawObject (fullTokenObject "Maker" "" 0 lp)])
      (Some trader) true = Ok deployments /\
    length deployments = 2%nat /\
    deployments !! 1%nat
    = Some {| t_from := Some lp; t_name := "Maker"; t_symbol := "";
              t_decimals := 0 |}.
Proof.
  apply (toTokenDeployments_explicit
           [RawSymbol "DAI"; RawObject (fullTokenObject "Maker" "" 0 lp)]
           1 "Maker" "" 0 lp (Some trader) true eq_refl).
Defined.

(** X10: a property an object leaves out takes the default of its position
    ("TK" and the position for the symbol, the shared deployer), while a
    property it sets to [undefined] wipes that default: the symbol is then
    "TKN" and there is no deployer. *)
Theorem toTokenDeployments_undefined (l : list RawTokenDeployment) (i : nat)
    (o : TokenDeploymentObject) from (varyDecimals : bool) :
  l !! i = Some (RawObject o) ->
  exists (deployments : list TokenDeployment) (d : TokenDeployment),
    toTokenDeployments (RawList l) from varyDecimals = Ok deployments /\
    deployments !! i = Some d /\
    (rt_symbol o = Absent -> t_symbol d = "TK" +:+ Js.index_to_string i) /\
    (rt_symbol o = Undefined -> t_symbol d = "TKN") /\
    (rt_name o = Absent -> t_name d = "Token " +:+ Js.index_to_string i) /\
    (rt_name o = Undefined -> t_name d = "Token") /\
    (rt_decimals o = Undefined -> t_decimals d = 18) /\
    (rt_from o = Absent -> t_from d = from) /\
    (rt_from o = Undefined -> t_from d = None).
Proof.
  intros Hi. eexists. eexists. split; [reflexivity|]. split.
  { rewrite list_lookup_imap, Hi. reflexivity. }
  unfold toTokenDeployment. simpl.
  repeat split; intros ->; try reflexivity.
  destruct from; reflexivity.
Qed.

Lemma toTokenDeployments_undefined_witness :
  exists (deployments : list TokenDeployment) (d : TokenDeployment),
    toTokenDeployments
      (RawList [RawObject {| rt_name := Absent; rt_symbol := Undefined;
                             rt_decimals := Absent; rt_from := Undefined |}])
      (Some lp) false = Ok deployments /\
    deployments !! 0%nat = Some d /\
    t_symbol d = "TKN" /\ t_name d = "Token 0" /\ t_from d = None.
Proof.
  destruct (toTokenDeployments_undefined
              [RawObject {| rt_name := Absent; rt_symbol := Undefined;
                            rt_decimals := Absent; rt_from := Undefined |}]
              0 _ (Some lp) false eq_refl)
    as (deployments & d & Hok & Hd & _ & Hsym & Hname & _ & _ & _ & Hfrom).
  exists deployments, d. split; [exact Hok|]. split; [exact Hd|].
  split; [exact (Hsym eq_refl)|]. split; [exact (Hname eq_refl)|].
  exact (Hfrom eq_refl).
Defined.

(** ** Further properties of mints and approvals *)

Lemma mint_records_recipients (p : RawTokenTransfer) :
  x_to <$> mint_records p = elements (r_to p).
Proof.
  unfold mint_records. apply list_eq. intros i.
  rewrite list_lookup_fmap, list_lookup_imap.
  destruct (elements (r_to p) !! i); reflexivity.
Qed.

(** X11: when [toTokenMints] succeeds, the recipients of the records are
    the recipients of the input, element after element, in order; so there
    are as many records as recipients. *)
Theorem toTokenMints_recipients (params : RawTokenMint) (mints : list TokenMint) :
  toTokenMints params = Ok mints ->
  x_to <$> mints = elements params ≫= (fun p => elements (r_to p)) /\
  length mints = length (elements params ≫= (fun p => elements (r_to p))).
Proof.
  intros Hok.
  assert (Hto : x_to <$> mints = elements params ≫= (fun p => elements (r_to p))).
  { destruct (toTokenMints_outcome params) as [[_ Hr]|[_ Hr]];
      rewrite Hr in Hok; [discriminate|].
    injection Hok as <-. clear.
    generalize (elements params) as ps.
    induction ps as [|p ps IH]; [reflexivity|].
    rewrite !bind_cons, fmap_app, IH, mint_records_recipients. reflexivity. }
  split; [exact Hto|]. rewrite <- Hto, length_fmap. reflexivity.
Qed.

Lemma toTokenMints_recipients_witness :
  toTokenMints (One twoRecipientsTwoSenders)
  = Ok [ {| x_to := vault; x_amount := Some (BNNumber 7); x_from := Some lp |};
         {| x_to := router; x_amount := Some (BNNumber 7); x_from := Some trader |} ] /\
  x_to <$> [ {| x_to := vault; x_amount := Some (BNNumber 7); x_from := Some lp |};
             {| x_to := router; x_amount := Some (BNNumber 7); x_from := Some trader |} ]
  = [vault; router].
Proof.
  split; [reflexivity|].
  apply (proj1 (toTokenMints_recipients (One twoRecipientsTwoSenders) _ eq_refl)).
Defined.

(** X12: minting for two lists of inputs put end to end gives the records
    of the first followed by those of the second; the first error met,
    going from left to right, is the outcome. *)
Theorem toTokenMints_append (ps qs : list RawTokenTransfer) :
  toTokenMints (Many (ps ++ qs))
  = (l1 ← toTokenMints (Many ps); l2 ← toTokenMints (Many qs); mret (l1 ++ l2)).
Proof.
  unfold toTokenMints, mbind, result_bind, mret, result_ret.
  induction ps as [|p ps IH]; simpl.
  - destruct (Js.flatMap toTokenMints1 qs); reflexivity.
  - destruct (toTokenMints1 p) as [l|msg]; simpl; [|reflexivity].
    rewrite IH.
    destruct (Js.flatMap toTokenMints1 ps) as [l1|msg]; simpl; [|reflexivity].
    destruct (Js.flatMap toTokenMints1 qs) as [l2|msg]; simpl; [|reflexivity].
    rewrite app_assoc. reflexivity.
Qed.

(** X13: as long as the sender is not a list, a transfer normalises to the
    same records as a mint and as an approval. *)
Theorem toTokenMints_toTokenApprovals_agree (p : RawTokenTransfer) :
  from_is_array (r_from p) = false ->
  toTokenMints (One p) = toTokenApprovals (One p).
Proof.
  intros Hfrom. simpl. unfold toTokenMints1, toTokenApprovals1.
  rewrite Hfrom.
  destruct (r_from p) as [[s|senders]|]; [|discriminate|];
    destruct (r_to p) as [to|recipients]; try reflexivity;
    f_equal; induction recipients as [|a l IH] using rev_ind;
    try reflexivity;
    rewrite imap_app, bind_app, IH; reflexivity.
Qed.

Lemma toTokenMints_toTokenApprovals_agree_witness :
  toTokenMints (One {| r_to := Many [vault; router]; r_amount := None;
                       r_from := Some (One lp) |})
  = toTokenApprovals (One {| r_to := Many [vault; router]; r_amount := None;
                             r_from := Some (One lp) |}).
Proof.
  apply (toTokenMints_toTokenApprovals_agree
           {| r_to := Many [vault; router]; r_amount := None;
              r_from := Some (One lp) |} eq_refl).
Defined.

Lemma bind_length_const {A B} (f : A -> list B) (k : nat) (l : list A) :
  (forall a, length (f a) = k) -> length (l ≫= f) = (length l * k)%nat.
Proof.
  intros Hf. induction l as [|a l IH]; [reflexivity|].
  rewrite bind_cons, length_app, IH, Hf. simpl. reflexivity.
Qed.

Lemma bind_nil_const {A B} (f : A -> list B) (l : list A) :
  (forall a, f a = []) -> l ≫= f = [].
Proof.
  intros Hf. induction l as [|a l IH]; [reflexivity|].
  rewrite bind_cons, IH, Hf. reflexivity.
Qed.

(** X14: an approval input that is not a list gives one record per pair of
    a recipient and a sender, a sender that is not a list counting for one;
    with an empty list of senders there is no record at all, and no
    error. *)
Theorem toTokenApprovals_count (p : RawTokenTransfer) :
  exists approvals : list TokenApproval,
    toTokenApprovals (One p) = Ok approvals /\
    length approvals
    = (length (elements (r_to p)) * senders_count (r_from p))%nat /\
    (r_from p = Some (Many []) -> approvals = []) /\
    forall a : TokenApproval, a ∈ approvals -> x_amount a = r_amount p.
Proof.
  eexists. split; [reflexivity|]. unfold toTokenApprovals1.
  replace (match r_to p with Many l => l | One a => [a] end)
    with (elements (r_to p)) by (destruct (r_to p); reflexivity).
  split; [|split].
  - apply bind_length_const. intros to.
    destruct (r_from p) as [[s|senders]|]; simpl; rewrite ?length_fmap;
      reflexivity.
  - intros ->. apply bind_nil_const. reflexivity.
  - intros a Ha. apply list_elem_of_bind in Ha as (to & Ha & _).
    destruct (r_from p) as [[s|senders]|].
    + apply list_elem_of_singleton in Ha as ->. reflexivity.
    + apply list_elem_of_fmap in Ha as (s & -> & _). reflexivity.
    + apply list_elem_of_singleton in Ha as ->. reflexivity.
Qed.

Lemma toTokenApprovals_count_witness :
  exists approvals : list TokenApproval,
    toTokenApprovals (One {| r_to := Many [vault; router]; r_amount := None;
                             r_from := Some (Many []) |}) = Ok approvals /\
    approvals = [].
Proof.
  destruct (toTokenApprovals_count
              {| r_to := Many [vault; router]; r_amount := None;
                 r_from := Some (Many []) |})
    as (approvals & Hok & _ & Hempty & _).
  exists approvals. split; [exact Hok|exact (Hempty eq_refl)].
Defined.

(** ** Further properties of addresses, pools and vaults *)

Section FurtherProperties.
Context `{HelperConstants}.

(** X15: [toAddresses] gives one address per account, in order: a list of
    non-empty address strings comes back unchanged, and a list of
    account-like objects becomes the list of their addresses. *)
Theorem toAddresses_strings_objects (strings : list string)
    (objects : list SignerWithAddress) :
  Forall (fun s => s <> "") strings ->
  toAddresses (AccountString <$> strings) = strings /\
  toAddresses (AccountObject <$> objects) = address <$> objects /\
  length (toAddresses ((AccountString <$> strings) ++ (AccountObject <$> objects)))
  = (length strings + length objects)%nat.
Proof.
  intros Hne. unfold toAddresses. split; [|split].
  - induction Hne as [|s l Hs _ IH]; [reflexivity|].
    rewrite !fmap_cons, IH. f_equal.
    unfold toAddress, falsy_account.
    destruct (string_dec s ""); [contradiction|reflexivity].
  - rewrite <- list_fmap_compose. reflexivity.
  - rewrite length_fmap, length_app, !length_fmap. reflexivity.
Qed.

(** X16: normalising an address again changes nothing, provided an
    account-like input does not carry the empty string as its address. *)
Theorem toAddress_idempotent (to : option Account) :
  (forall o, to = Some (AccountObject o) -> address o <> "") ->
  toAddress (Some (AccountString (toAddress to))) = toAddress to.
Proof.
  intros Hobj. unfold toAddress, falsy_account.
  destruct to as [[s|o]|].
  - destruct (string_dec s "") as [->|Hs].
    + destruct (string_dec ZERO_ADDRESS ""); reflexivity.
    + destruct (string_dec s ""); [contradiction|reflexivity].
  - specialize (Hobj o eq_refl).
    destruct (string_dec (address o) ""); [contradiction|reflexivity].
  - destruct (string_dec ZERO_ADDRESS ""); reflexivity.
Qed.

(** X17: the owner of a pool deployment is the address [toAddress] gives
    for the raw owner: the zero address when there is none. *)
Theorem toSafeguardPoolDeployment_owner (params : RawSafeguardPoolDeployment) :
  s_owner (toSafeguardPoolDeployment params) = toAddress (rs_owner params) /\
  (rs_owner params = None ->
   s_owner (toSafeguardPoolDeployment params) = ZERO_ADDRESS).
Proof.
  assert (Hown : s_owner (toSafeguardPoolDeployment params)
                 = toAddress (rs_owner params)).
  { cbn [toSafeguardPoolDeployment s_owner]. unfold toAddress, falsy_account.
    destruct (rs_owner params) as [[s|o]|]; cbn.
    - destruct (string_dec s "") as [->|Hs]; cbn;
        [destruct (string_dec ZERO_ADDRESS ""); reflexivity|].
      destruct (string_dec s ""); [contradiction|reflexivity].
    - reflexivity.
    - destruct (string_dec ZERO_ADDRESS ""); reflexivity. }
  split; [exact Hown|]. intros Hnone. rewrite Hown, Hnone. reflexivity.
Qed.

(** X18: the lists a raw pool deployment gives are taken as they are,
    neither padded nor checked against the token count: the asset managers
    are returned unchanged, and for a token at a position past the end of a
    given list the oracle parameter read from that list is [undefined]. *)
Theorem toSafeguardPoolDeployment_short_lists
    (params : RawSafeguardPoolDeployment) (i : nat) :
  let d := toSafeguardPoolDeployment params in
  (i < TokenList_length (s_tokens d))%nat ->
  (forall l, rs_assetManagers params = Some l -> s_assetManagers d = l) /\
  exists op : InitialOracleParams,
    s_oracleParameters d !! i = Some op /\
    (forall l, rs_oracles params = Some l ->
       (length l <= i)%nat -> oracle op = None) /\
    (forall l, rs_maxOracleTimeouts params = Some l ->
       (length l <= i)%nat -> maxTimeout op = None) /\
    (forall l, rs_stableTokens params = Some l ->
       (length l <= i)%nat -> isStable op = None) /\
    (forall l, rs_flexibleOracles params = Some l ->
       (length l <= i)%nat -> isFlexibleOracle op = None).
Proof.
  intros d Hi. subst d. rewrite toSafeguardPoolDeployment_tokens in Hi.
  unfold TokenList_length in Hi.
  destruct (lookup_lt_is_Some_2 _ _ Hi) as [t Ht].
  split.
  { intros l Hl. cbn [toSafeguardPoolDeployment s_assetManagers].
    rewrite Hl. reflexivity. }
  eexists. split.
  { cbn [toSafeguardPoolDeployment s_oracleParameters]. unfold TokenList_map.
    rewrite list_lookup_imap, Ht. reflexivity. }
  cbn [oracle maxTimeout isStable isFlexibleOracle].
  repeat split; intros l -> Hlen; apply lookup_ge_None_2; exact Hlen.
Qed.

(** X19: the vault deployment made from the vault parameters of a pool is
    mocked unless the pool comes from the factory, has the pool's admin (or
    else its [from]), keeps the two durations of the first normalisation and
    has both maximal values at 100%. *)
Theorem toVaultDeployment_of_pool (params : RawSafeguardPoolVaultParams) :
  toVaultDeployment (toRawVaultDeployment params)
  = {| v_mocked :=
         match rs_fromFactory params with Some true => false | _ => true end;
       v_admin :=
         match rs_admin params with
         | Some a => Some a
         | None => rs_from (rs_pool params)
         end;
       v_pauseWindowDuration :=
         default_bn (rs_pauseWindowDuration (rs_pool params)) (BNNumber 0);
       v_bufferPeriodDuration :=
         default_bn (rs_bufferPeriodDuration (rs_pool params)) (BNNumber 0);
       v_maxYieldValue := FP_100_PCT; v_maxAUMValue := FP_100_PCT |}.
Proof.
  unfold toVaultDeployment, toRawVaultDeployment.
  cbn [rv_mocked rv_admin rv_from rv_pauseWindowDuration
       rv_bufferPeriodDuration rv_maxYieldValue rv_maxAUMValue].
  assert (Hidem : forall x, default_bn (Some (default_bn x (BNNumber 0))) (BNNumber 0)
                            = default_bn x (BNNumber 0)).
  { intros [[n|s|v]|]; try reflexivity; unfold default_bn, falsy_bn.
    - destruct (Z.eqb_spec n 0) as [->|Hn]; [reflexivity|].
      destruct (Z.eqb_spec n 0); [contradiction|reflexivity].
    - destruct (string_dec s "") as [->|Hs]; [reflexivity|].
      destruct (string_dec s ""); [contradiction|reflexivity]. }
  rewrite !Hidem. f_equal.
  - destruct (rs_fromFactory params) as [[|]|]; reflexivity.
  - destruct (rs_admin params); [reflexivity|].
    destruct (rs_from (rs_pool params)); reflexivity.
Qed.


End FurtherProperties.

Lemma toAddresses_strings_objects_witness :
  Forall (fun s => s <> "") ["0x00000000000000000000000000000000000000d4"] /\
  @toAddresses referenceConstants
    (AccountString <$> ["0x00000000000000000000000000000000000000d4"])
  = ["0x00000000000000000000000000000000000000d4"].
Proof.
  assert (Hne : Forall (fun s => s <> "")
                  ["0x00000000000000000000000000000000000000d4"]).
  { repeat constructor. discriminate. }
  split; [exact Hne|].
  exact (proj1 (@toAddresses_strings_objects referenceConstants _ [lp] Hne)).
Defined.

Lemma toAddress_idempotent_witness :
  @toAddress referenceConstants
    (Some (AccountString (@toAddress referenceConstants (Some (AccountObject lp)))))
  = @toAddress referenceConstants (Some (AccountObject lp)).
Proof.
  apply (@toAddress_idempotent referenceConstants (Some (AccountObject lp))).
  intros o [= <-]. discriminate.
Defined.

Lemma toSafeguardPoolDeployment_owner_witness :
  s_owner (@toSafeguardPoolDeployment referenceConstants twoTokenPool)
  = "0x0000000000000000000000000000000000000000".
Proof.
  apply (proj2 (@toSafeguardPoolDeployment_owner referenceConstants twoTokenPool)).
  reflexivity.
Defined.

Lemma toSafeguardPoolDeployment_short_lists_witness :
  exists op : InitialOracleParams,
    s_oracleParameters
      (@toSafeguardPoolDeployment referenceConstants
         (poolWithOracles [DAI; MKR] [vault])) !! 1%nat = Some op /\
    oracle op = None /\
    maxTimeout op = Some (BNNumber 86400).
Proof.
  destruct (@toSafeguardPoolDeployment_short_lists referenceConstants
              (poolWithOracles [DAI; MKR] [vault]) 1)
    as (_ & op & Hop & Hor & _).
  { change (1 < 2)%nat. lia. }
  exists op. split; [exact Hop|].
  split; [apply (Hor [vault] eq_refl); simpl; lia|].
  cbn in Hop. injection Hop as <-. reflexivity.
Defined.

